(** * lcdproc_g15 debug tools: [debug/debug_rgb.py] and [debug/debug_keys.py]

    A shallow embedding of the two diagnostic scripts and the properties
    their specification states about them.

    - [Py] holds the pieces of Python both scripts rely on: text as a
      sequence of code points, exceptions, and a small monad that records
      what a run does (texts handed to [print], files opened, directories
      listed, sleeps) together with its outcome (a value or a raised
      exception).
    - [DebugRgb] follows [debug_rgb.py] function by function.
    - [DebugKeys] follows [debug_keys.py] function by function.
    - The remaining modules state and prove the properties. *)

From Stdlib Require Import String Ascii HexadecimalString DecimalString.
From Stdlib Require Import NArith ZArith Bool Arith Lia List.
Import ListNotations.
Local Open Scope list_scope.

(* ================================================================== *)
(** * Python primitives *)
(* ================================================================== *)

Module Py.

(** A Python [str]: a sequence of Unicode code points. *)
Definition str : Type := list N.

(** A literal of the source, written as a Rocq string of ASCII characters. *)
Definition lit (s : string) : str := map N_of_ascii (list_ascii_of_string s).

(** [a == b] on [str]. *)
Fixpoint str_eqb (a b : str) : bool :=
  match a, b with
  | [], [] => true
  | x :: a', y :: b' => (x =? y)%N && str_eqb a' b'
  | _, _ => false
  end.

(** [s * n] *)
Definition str_mul (s : str) (n : nat) : str := concat (repeat s n).

(** [s[:-k]] *)
Definition drop_last (k : nat) (s : str) : str := firstn (length s - k) s.

(** [s.startswith(prefix)] *)
Fixpoint startswith (s prefix : str) {struct prefix} : bool :=
  match prefix with
  | [] => true
  | p :: prefix' =>
      match s with
      | [] => false
      | c :: s' => (c =? p)%N && startswith s' prefix'
      end
  end.

(** [c.isspace()] for one code point: the characters of Unicode
    bidirectional class WS, B or S, or of category Zs. *)
Definition isspace (c : N) : bool :=
  (((0x09 <=? c) && (c <=? 0x0D)) || ((0x1C <=? c) && (c <=? 0x20))
   || (c =? 0x85) || (c =? 0xA0) || (c =? 0x1680)
   || ((0x2000 <=? c) && (c <=? 0x200A))
   || (c =? 0x2028) || (c =? 0x2029) || (c =? 0x202F) || (c =? 0x205F)
   || (c =? 0x3000))%N.

(** [s.lstrip()], [s.rstrip()], [s.strip()] *)
Fixpoint lstrip (s : str) : str :=
  match s with
  | [] => []
  | c :: s' => if isspace c then lstrip s' else s
  end.

Definition rstrip (s : str) : str := rev (lstrip (rev s)).

Definition strip (s : str) : str := rstrip (lstrip s).

(** [hex(n)], [f"{n}"] and [f"{n:04x}"] for a non-negative integer. *)
Definition hex_digits (n : N) : str :=
  lit (HexadecimalString.NilZero.string_of_uint (N.to_hex_uint n)).

Definition hex (n : N) : str := lit "0x" ++ hex_digits n.

Definition decimal (n : N) : str :=
  lit (DecimalString.NilZero.string_of_uint (N.to_uint n)).

Definition format_04x (n : N) : str :=
  let d := hex_digits n in
  concat (repeat (lit "0") (4 - length d)) ++ d.

(** The exceptions the two scripts can meet. *)
Inductive exn : Type :=
| FileNotFoundError
| PermissionError
| OSError
| UnicodeDecodeError
| BlockingIOError
| KeyError
| AttributeError
| KeyboardInterrupt
| SystemExit (code : N).

(** The outcome of evaluating an expression or running a statement. *)
Inductive result (A : Type) : Type :=
| Return (a : A)
| Raise (e : exn).
Arguments Return {A} a.
Arguments Raise {A} e.

(** What a run does that the outside can observe. *)
Inductive Event : Type :=
| Printed (text : str)    (* one call of [print] *)
| Opened (path : str)     (* one call of [open] or [evdev.InputDevice] *)
| Listed (dir : str)      (* one call of [os.listdir] or [evdev.list_devices] *)
| Slept.                  (* one call of [time.sleep] *)

(** A computation: the events it performed, in order, and its outcome. *)
Definition M (A : Type) : Type := (list Event * result A)%type.

Definition ret {A} (a : A) : M A := ([], Return a).

Definition raise {A} (e : exn) : M A := ([], Raise e).

Definition bind {A B} (m : M A) (k : A -> M B) : M B :=
  match m with
  | (t, Return a) => let (t', r) := k a in (t ++ t', r)
  | (t, Raise e) => (t, Raise e)
  end.

Definition emit (ev : Event) : M unit := ([ev], Return tt).

Definition print (text : str) : M unit := emit (Printed text).

(** [sys.exit(code)] *)
Definition sys_exit {A} (code : N) : M A := raise (SystemExit code).

(** [try: body / except ...: handler].  [handler e] is [None] when no
    [except] clause matches [e]. *)
Definition try_except {A} (body : M A) (handler : exn -> option (M A)) : M A :=
  match body with
  | (t, Return a) => (t, Return a)
  | (t, Raise e) =>
      match handler e with
      | Some h => let (t', r) := h in (t ++ t', r)
      | None => (t, Raise e)
      end
  end.

Module Notations.
Declare Scope py_scope.
Delimit Scope py_scope with py.
Notation "x <- m ;; k" := (bind m (fun x => k))
  (at level 61, m at next level, right associativity) : py_scope.
Notation "m ;; k" := (bind m (fun _ => k))
  (at level 61, right associativity) : py_scope.
End Notations.
Import Notations.
Local Open Scope py_scope.

(** [for x in xs: body(x)] *)
Fixpoint for_each {A} (xs : list A) (body : A -> M unit) : M unit :=
  match xs with
  | [] => ret tt
  | x :: xs' => body x ;; for_each xs' body
  end.

(** The events and the outcome of a computation. *)
Definition trace {A} (m : M A) : list Event := fst m.
Definition outcome {A} (m : M A) : result A := snd m.

(** The texts printed, in order. *)
Definition printed (t : list Event) : list str :=
  flat_map (fun ev => match ev with Printed s => [s] | _ => [] end) t.

(** The files opened, in order. *)
Definition opened (t : list Event) : list str :=
  flat_map (fun ev => match ev with Opened p => [p] | _ => [] end) t.

(** The exit status of the interpreter for a script whose top level ran
    [m]: that of [sys.exit], 1 for a traceback, and 130 where the shell
    reports the end by an interrupt nobody caught. *)
Definition exit_status (m : M unit) : N :=
  match outcome m with
  | Return _ => 0
  | Raise (SystemExit code) => code
  | Raise KeyboardInterrupt => 130
  | Raise _ => 1
  end.

End Py.

(* ================================================================== *)
(** * debug_rgb.py *)
(* ================================================================== *)

Module DebugRgb.
Import Py Py.Notations.
Local Open Scope py_scope.

Definition LED_BRIGHTNESS : str := lit "/sys/class/leds/g15::kbd_backlight/brightness".
Definition LED_COLOR : str := lit "/sys/class/leds/g15::kbd_backlight/color".
Definition POWER_BRIGHTNESS : str := lit "/sys/class/leds/g15::power_on_backlight_val/brightness".
Definition POWER_COLOR : str := lit "/sys/class/leds/g15::power_on_backlight_val/color".

(** What [with open(path, 'r') as f: f.read()] meets for one path: [open]
    raises, or [read] raises, or [read] returns the text [content]. *)
Inductive FileOutcome : Type :=
| OpenRaises (e : exn)
| ReadRaises (e : exn)
| Text (content : str).

(** The outside world at one sampling instant: the files, and the clock as
    the text [time.strftime] returns for a format. *)
Record Sample : Type := {
  file : str -> FileOutcome;
  strftime : str -> str
}.

(** The body of the [try] of [read_file]. *)
Definition open_and_read (w : Sample) (path : str) : M str :=
  emit (Opened path) ;;
  match file w path with
  | OpenRaises e => raise e
  | ReadRaises e => raise e
  | Text content => ret (strip content)
  end.

(** [read_file(path)] (lines 18-24): a bare [except:] matches every
    exception. *)
Definition read_file (w : Sample) (path : str) : M str :=
  try_except (open_and_read w path) (fun _ => Some (ret (lit "ERROR"))).

(** The dictionary built by [get_rgb_state]: five fixed keys. *)
Record State : Type := {
  kbd_brightness : str;
  kbd_color : str;
  power_brightness : str;
  power_color : str;
  timestamp : str
}.

(** The four keys the monitor compares. *)
Inductive Key : Type := KbdBrightness | KbdColor | PowerBrightness | PowerColor.

Definition key_name (k : Key) : str :=
  match k with
  | KbdBrightness => lit "kbd_brightness"
  | KbdColor => lit "kbd_color"
  | PowerBrightness => lit "power_brightness"
  | PowerColor => lit "power_color"
  end.

(** [state[key]] *)
Definition get (s : State) (k : Key) : str :=
  match k with
  | KbdBrightness => kbd_brightness s
  | KbdColor => kbd_color s
  | PowerBrightness => power_brightness s
  | PowerColor => power_color s
  end.

(** [state.items()], in insertion order. *)
Definition items (s : State) : list (str * str) :=
  [ (lit "kbd_brightness", kbd_brightness s);
    (lit "kbd_color", kbd_color s);
    (lit "power_brightness", power_brightness s);
    (lit "power_color", power_color s);
    (lit "timestamp", timestamp s) ].

(** [get_rgb_state()] (lines 26-34) *)
Definition get_rgb_state (w : Sample) : M State :=
  kb <- read_file w LED_BRIGHTNESS ;;
  kc <- read_file w LED_COLOR ;;
  pb <- read_file w POWER_BRIGHTNESS ;;
  pc <- read_file w POWER_COLOR ;;
  ret {| kbd_brightness := kb;
         kbd_color := kc;
         power_brightness := pb;
         power_color := pc;
         timestamp := drop_last 3 (strftime w (lit "%H:%M:%S.%f")) |}.

(** [os.listdir(dir)], given what the call meets. *)
Definition listdir (listing : result (list str)) (dir : str) : M (list str) :=
  emit (Listed dir) ;;
  match listing with
  | Return names => ret names
  | Raise e => raise e
  end.

(** [check_hidraw_devices()] (lines 36-46): the list is grown by
    [append] inside the [try]; a bare [except:] returns the empty list. *)
Definition check_hidraw_devices (dev : result (list str)) : M (list str) :=
  try_except
    (names <- listdir dev (lit "/dev") ;;
     ret (fold_left
            (fun hidraw_devices device =>
               if startswith device (lit "hidraw")
               then hidraw_devices ++ [lit "/dev/" ++ device]
               else hidraw_devices)
            names []))
    (fun _ => Some (ret [])).

(** One entry of [changes]. *)
Record Change : Type := {
  param : str;
  old : str;
  new : str
}.

Definition KEYS : list Key := [KbdBrightness; KbdColor; PowerBrightness; PowerColor].

(** The "Check for changes" loop of [monitor_rgb_changes] (lines 73-81). *)
Definition detect_changes (last_state current_state : State) : list Change :=
  fold_left
    (fun changes key =>
       if negb (str_eqb (get current_state key) (get last_state key))
       then changes ++ [{| param := key_name key;
                           old := get last_state key;
                           new := get current_state key |}]
       else changes)
    KEYS [].

(** The [if changes:] block (lines 83-88): the report and the new stored
    state. *)
Definition report_changes (last_state current_state : State)
    (changes : list Change) : M State :=
  match changes with
  | [] => ret last_state
  | _ :: _ =>
      print (lit "CHANGE DETECTED at " ++ timestamp current_state ++ lit ":") ;;
      for_each changes (fun change =>
        print (lit "  " ++ param change ++ lit ": " ++ old change
               ++ lit " -> " ++ new change)) ;;
      print (str_mul (lit "-") 50) ;;
      ret current_state
  end.

(** One pass through the body of [while True], up to and including the
    sleep; the result is the value of [last_state] at the end of the pass. *)
Definition iteration (last_state : State) (w : Sample) : M State :=
  current_state <- get_rgb_state w ;;
  last_state' <- report_changes last_state current_state
                   (detect_changes last_state current_state) ;;
  emit Slept ;;
  ret last_state'.

(** The passes of the loop over the recorded samples, one per pass. *)
Fixpoint iterations (last_state : State) (polls : list Sample) : M State :=
  match polls with
  | [] => ret last_state
  | w :: later =>
      last_state' <- iteration last_state w ;;
      iterations last_state' later
  end.

(** The world of one run: the outcome of listing [/dev], the sample taken
    at start-up, and the samples taken by the loop.  The operator's
    interrupt arrives once the recorded samples are used up. *)
Record World : Type := {
  dev_listing : result (list str);
  initial : Sample;
  polls : list Sample
}.

(** The start-up part of [monitor_rgb_changes] (lines 50-67), up to the
    loop. *)
Section Monitor.
Variable repr_list : list str -> str.   (* [repr] of a list of [str] *)

Definition startup (w : World) : M State :=
  print (lit "RGB Backlight Monitor") ;;
  print (lit "====================") ;;
  hidraw_devs <- check_hidraw_devices (dev_listing w) ;;
  print (lit "Found HID raw devices: " ++ repr_list hidraw_devs) ;;
  print (lit "Press the RGB backlight button on your G15 keyboard") ;;
  print (lit "Press Ctrl+C to exit") ;;
  print [] ;;
  last_state <- get_rgb_state (initial w) ;;
  print (lit "Initial state at " ++ timestamp last_state ++ lit ":") ;;
  for_each (items last_state) (fun '(key, value) =>
    if negb (str_eqb key (lit "timestamp"))
    then print (lit "  " ++ key ++ lit ": " ++ value)
    else ret tt) ;;
  print (str_mul (lit "-") 50) ;;
  ret last_state.

(** [monitor_rgb_changes()] *)
Definition monitor_rgb_changes (w : World) : M unit :=
  last_state <- startup w ;;
  try_except
    (iterations last_state (polls w) ;; raise KeyboardInterrupt)
    (fun e => match e with
              | KeyboardInterrupt => Some (print (10%N :: lit "Exiting..."))
              | _ => None
              end).

(** The [if __name__ == "__main__":] block (lines 95-100), given
    [os.geteuid()]. *)
Definition main (euid : N) (w : World) : M unit :=
  (if negb (euid =? 0)%N
   then print (lit "This script needs to be run as root (sudo)") ;; sys_exit 1
   else ret tt) ;;
  monitor_rgb_changes w.

End Monitor.

End DebugRgb.

(* ================================================================== *)
(** * debug_keys.py *)
(* ================================================================== *)

Module DebugKeys.
Import Py Py.Notations.
Local Open Scope py_scope.

(** Constants of python-evdev: [evdev.ecodes.EV_KEY] and the key states
    [evdev.KeyEvent.key_up], [key_down], [key_hold]. *)
Definition EV_KEY : N := 1.
Definition key_up : N := 0.
Definition key_down : N := 1.
Definition key_hold : N := 2.

(** An [evdev.InputDevice], with the attributes the script reads.
    [capabilities] is the dictionary of [device.capabilities()]: event
    types and the codes supported for each. *)
Record InputDevice : Type := {
  path : str;
  name : str;
  vendor : N;
  product : N;
  capabilities : list (N * list N)
}.

(** An [evdev.InputEvent]. *)
Record InputEvent : Type := {
  type : N;
  code : N;
  value : Z
}.

(** An event waiting on a device, with the reading of
    [time.strftime('%H:%M:%S')] at the moment it is handled. *)
Record Pending : Type := {
  event : InputEvent;
  wall_clock : str
}.

(** The input subsystem at start-up: the paths [evdev.list_devices()]
    returns, and what [evdev.InputDevice(path)] meets for each. *)
Record Inputs : Type := {
  device_paths : list str;
  input_device : str -> result InputDevice
}.

(** [key in dict] *)
Definition has_key (d : list (N * list N)) (k : N) : bool :=
  existsb (fun kv => (fst kv =? k)%N) d.

(** An [evdev.KeyEvent]; the attribute [keystate] exists only when the
    constructor assigned it. *)
Record KeyEvent : Type := {
  keystate : option N;
  keycode : str
}.

Section Evdev.
(** [repr] of [device.capabilities(verbose=True)]. *)
Variable repr_capabilities : InputDevice -> str.
(** [evdev.ecodes.keys]: the name(s) of a key code, as [print] shows them. *)
Variable keys : N -> option str.

(** [evdev.InputDevice(path)] *)
Definition open_input_device (sys : Inputs) (p : str) : M InputDevice :=
  emit (Opened p) ;;
  match input_device sys p with
  | Return device => ret device
  | Raise e => raise e
  end.

(** The body of the [for path in evdev.list_devices()] loop, and the loop;
    [devices] is the list grown by [append]. *)
Fixpoint scan_devices (sys : Inputs) (paths : list str)
    (devices : list InputDevice) : M (list InputDevice) :=
  match paths with
  | [] => ret devices
  | p :: rest =>
      device <- open_input_device sys p ;;
      print (lit "Device: " ++ name device) ;;
      print (lit "  Path: " ++ path device) ;;
      print (lit "  Vendor: 0x" ++ format_04x (vendor device)) ;;
      print (lit "  Product: 0x" ++ format_04x (product device)) ;;
      print (lit "  Capabilities: " ++ repr_capabilities device) ;;
      print (str_mul (lit "-") 30) ;;
      devices' <- (if has_key (capabilities device) EV_KEY
                   then print (lit "  -> MONITORING: " ++ name device) ;;
                        ret (devices ++ [device])
                   else ret devices) ;;
      print [] ;;
      scan_devices sys rest devices'
  end.

(** [find_all_devices()] (lines 13-36) *)
Definition find_all_devices (sys : Inputs) : M (list InputDevice) :=
  print (lit "Available input devices:") ;;
  print (str_mul (lit "=") 50) ;;
  emit (Listed (lit "/dev/input")) ;;
  devices <- scan_devices sys (device_paths sys) [] ;;
  print (lit "Total devices to monitor: " ++ decimal (N.of_nat (length devices))) ;;
  ret devices.

(** [evdev.categorize(event)] for an event of type [EV_KEY]: the
    constructor of [KeyEvent].  It assigns [keystate] for the values 0, 2
    and 1, then looks the code up in [keys]. *)
Definition categorize (ev : InputEvent) : M KeyEvent :=
  let state :=
    if (value ev =? 0)%Z then Some key_up
    else if (value ev =? 2)%Z then Some key_hold
    else if (value ev =? 1)%Z then Some key_down
    else None in
  match keys (code ev) with
  | Some names => ret {| keystate := state; keycode := names |}
  | None => raise KeyError
  end.

(** [key_event.keystate] *)
Definition get_keystate (key_event : KeyEvent) : M N :=
  match keystate key_event with
  | Some state => ret state
  | None => raise AttributeError
  end.

(** The body of [for event in device.read()] (lines 51-57). *)
Definition on_event (device : InputDevice) (p : Pending) : M unit :=
  if (type (event p) =? EV_KEY)%N then
    key_event <- categorize (event p) ;;
    state <- get_keystate key_event ;;
    if (state =? key_down)%N then
      print (lit "Device: " ++ name device) ;;
      print (lit "Key: " ++ keycode key_event ++ lit " = " ++ hex (code (event p))
             ++ lit " (" ++ decimal (code (event p)) ++ lit ")") ;;
      print (lit "Time: " ++ wall_clock p) ;;
      print (str_mul (lit "-") 40)
    else ret tt
  else ret tt.

(** One result of [select.select]: the devices reported readable, each
    with what [device.read()] meets. *)
Definition Ready : Type := list (InputDevice * result (list Pending)).

(** [select.select(devices, [], [])]: of the devices that are ready, those
    that were passed in. *)
Definition select (devices : list InputDevice) (ready : Ready) : Ready :=
  filter (fun r => existsb (fun d => str_eqb (path d) (path (fst r))) devices) ready.

(** The body of [for device in r]: the [try] around the read loop. *)
Definition read_device (r : InputDevice * result (list Pending)) : M unit :=
  try_except
    (events <- match snd r with
               | Return evs => ret evs
               | Raise e => raise e
               end ;;
     for_each events (on_event (fst r)))
    (fun e => match e with
              | BlockingIOError => Some (ret tt)
              | _ => None
              end).

(** The [while True] loop over the recorded results of [select]; the
    operator's interrupt arrives once they are used up. *)
Fixpoint select_loop (devices : list InputDevice) (rounds : list Ready) : M unit :=
  match rounds with
  | [] => raise KeyboardInterrupt
  | ready :: later =>
      for_each (select devices ready) read_device ;;
      select_loop devices later
  end.

(** [monitor_events(devices)] (lines 38-62) *)
Definition monitor_events (devices : list InputDevice) (rounds : list Ready) : M unit :=
  print (10%N :: lit "Monitoring G15 input events...") ;;
  print (lit "Press keys on your G15 keyboard (Ctrl+C to exit)") ;;
  print (str_mul (lit "-") 60) ;;
  try_except
    (select_loop devices rounds)
    (fun e => match e with
              | KeyboardInterrupt => Some (print (10%N :: lit "Exiting..."))
              | _ => None
              end).

(** The module's documentation string. *)
Definition doc : str :=
  10%N :: lit "Debug script to capture and display input events from G15 keyboard"
  ++ 10%N :: lit "Run with: sudo python3 debug_keys.py" ++ [10%N].

(** [len(sys.argv) > 1 and sys.argv[1] in ['-h', '--help']] *)
Definition wants_help (argv : list str) : bool :=
  match argv with
  | _ :: arg :: _ => str_eqb arg (lit "-h") || str_eqb arg (lit "--help")
  | _ => false
  end.

(** [main()], given [sys.argv]. *)
Definition main (argv : list str) (sys : Inputs) (rounds : list Ready) : M unit :=
  if wants_help argv then print doc
  else
    print (lit "G15 Keyboard Key Code Debug Tool") ;;
    print (str_mul (lit "=") 40) ;;
    devices <- find_all_devices sys ;;
    match devices with
    | [] =>
        print (lit "No input devices found!") ;;
        print (lit "Make sure you have permissions to access input devices.")
    | _ :: _ => monitor_events devices rounds
    end.

End Evdev.

End DebugKeys.

(* ================================================================== *)
(** * Facts about the Python primitives *)
(* ================================================================== *)

Module PyFacts.
Import Py Py.Notations.
Local Open Scope py_scope.

(** ** Text *)

Lemma str_eqb_refl (a : str) : str_eqb a a = true.
Proof.
  induction a as [|x a IH]; simpl; [reflexivity|].
  now rewrite N.eqb_refl.
Qed.

Lemma str_eqb_eq (a b : str) : str_eqb a b = true <-> a = b.
Proof.
  split.
  - revert b; induction a as [|x a IH]; intros [|y b] H; simpl in H;
      try discriminate; [reflexivity|].
    apply andb_true_iff in H as [Hxy Hab].
    apply N.eqb_eq in Hxy. apply IH in Hab. now subst.
  - intros ->. apply str_eqb_refl.
Qed.

Lemma str_eqb_neq (a b : str) : str_eqb a b = false <-> a <> b.
Proof.
  rewrite <- str_eqb_eq. destruct (str_eqb a b); intuition congruence.
Qed.

Lemma startswith_prefix (s p : str) :
  startswith s p = true <-> exists rest, s = p ++ rest.
Proof.
  revert s; induction p as [|c p IH]; intros s; simpl.
  - split; [intros _; now exists s | reflexivity].
  - destruct s as [|d s].
    + split; [discriminate | intros [rest H]; discriminate].
    + rewrite andb_true_iff, N.eqb_eq, IH. split.
      * intros [-> [rest ->]]. now exists rest.
      * intros [rest H]. injection H as -> ->. split; [reflexivity|now exists rest].
Qed.

(** ** Stripping *)

Lemma lstrip_app (s r : str) :
  lstrip (s ++ r) = if forallb isspace s then lstrip r else lstrip s ++ r.
Proof.
  induction s as [|c s IH]; simpl; [reflexivity|].
  destruct (isspace c); simpl; [exact IH | reflexivity].
Qed.

Lemma lstrip_spaces (s : str) : forallb isspace s = true -> lstrip s = [].
Proof.
  induction s as [|c s IH]; simpl; [reflexivity|].
  destruct (isspace c); simpl; [exact IH | discriminate].
Qed.

Lemma lstrip_nil_spaces (s : str) : lstrip s = [] -> forallb isspace s = true.
Proof.
  induction s as [|c s IH]; simpl; [reflexivity|].
  destruct (isspace c); simpl; [exact IH | discriminate].
Qed.

Lemma forallb_rev {A} (p : A -> bool) (l : list A) :
  forallb p (rev l) = forallb p l.
Proof.
  induction l as [|x l IH]; simpl; [reflexivity|].
  rewrite forallb_app, IH. simpl. rewrite andb_true_r. apply andb_comm.
Qed.

(** What [lstrip] removes is white space, and what it leaves does not
    start with white space. *)
Lemma lstrip_split (s : str) :
  exists l, s = l ++ lstrip s /\ forallb isspace l = true.
Proof.
  induction s as [|c s [l [Hs Hl]]]; simpl.
  - now exists [].
  - destruct (isspace c) eqn:Hc.
    + exists (c :: l). simpl. rewrite Hc, Hl. split; [now f_equal | reflexivity].
    + now exists [].
Qed.

Lemma lstrip_head (s : str) :
  match lstrip s with [] => True | c :: _ => isspace c = false end.
Proof.
  induction s as [|c s IH]; simpl; [exact I|].
  destruct (isspace c) eqn:Hc; [exact IH | exact Hc].
Qed.

Lemma lstrip_keeps_last (s : str) (c : N) :
  isspace c = false -> lstrip (s ++ [c]) = lstrip s ++ [c].
Proof.
  intros Hc. rewrite lstrip_app.
  destruct (forallb isspace s) eqn:Hs.
  - simpl. rewrite Hc. now rewrite (lstrip_spaces s Hs).
  - reflexivity.
Qed.

Lemma rstrip_app (s r : str) :
  forallb isspace r = true -> rstrip (s ++ r) = rstrip s.
Proof.
  intros Hr. unfold rstrip. rewrite rev_app_distr, lstrip_app.
  now rewrite forallb_rev, Hr.
Qed.

Lemma rstrip_split (s : str) :
  exists r, s = rstrip s ++ r /\ forallb isspace r = true.
Proof.
  unfold rstrip. destruct (lstrip_split (rev s)) as [l [Hs Hl]].
  exists (rev l). rewrite forallb_rev. split; [|exact Hl].
  rewrite <- rev_app_distr, <- Hs. symmetry. apply rev_involutive.
Qed.

Lemma rstrip_last (s : str) :
  match rev (rstrip s) with [] => True | c :: _ => isspace c = false end.
Proof.
  unfold rstrip. rewrite rev_involutive. apply lstrip_head.
Qed.

(** [rstrip] does not touch the front of a text that starts with a
    character other than white space. *)
Lemma rstrip_head (s : str) :
  match s with
  | [] => True
  | c :: _ => isspace c = false -> exists t, rstrip s = c :: t
  end.
Proof.
  destruct s as [|c s]; [exact I|]. intros Hc.
  unfold rstrip. simpl. rewrite lstrip_keeps_last by exact Hc.
  rewrite rev_app_distr. simpl. now eexists.
Qed.

(** [strip] forgets white space around a text. *)
Lemma strip_surrounded (l core r : str) :
  forallb isspace l = true -> forallb isspace r = true ->
  strip (l ++ core ++ r) = strip core.
Proof.
  intros Hl Hr. unfold strip.
  rewrite lstrip_app, Hl, lstrip_app.
  destruct (forallb isspace core) eqn:Hc.
  - rewrite (lstrip_spaces r Hr), (lstrip_spaces core Hc). reflexivity.
  - now apply rstrip_app.
Qed.

(** [stripped content s]: [s] is [content] without the white space at its
    two ends. *)
Definition stripped (content s : str) : Prop :=
  (exists l r, content = l ++ s ++ r
               /\ forallb isspace l = true /\ forallb isspace r = true)
  /\ match s with [] => True | c :: _ => isspace c = false end
  /\ match rev s with [] => True | c :: _ => isspace c = false end.

Lemma strip_stripped (content : str) : stripped content (strip content).
Proof.
  unfold stripped, strip. repeat split.
  - destruct (lstrip_split content) as [l [Hs Hl]].
    destruct (rstrip_split (lstrip content)) as [r [Hs' Hr]].
    exists l, r. repeat split; try assumption. now rewrite <- Hs', <- Hs.
  - pose proof (lstrip_head content) as Hh.
    pose proof (rstrip_head (lstrip content)) as Ht.
    destruct (lstrip content) as [|c t]; [exact I|].
    destruct (Ht Hh) as [t' ->]. exact Hh.
  - apply rstrip_last.
Qed.

(** ** Computations *)

Lemma bind_ret {A B} (a : A) (k : A -> M B) : bind (ret a) k = k a.
Proof. unfold bind, ret. now destruct (k a). Qed.

Lemma bind_returns {A B} (m : M A) (k : A -> M B) t a :
  m = (t, Return a) -> bind m k = (t ++ trace (k a), outcome (k a)).
Proof. intros ->. unfold bind, trace, outcome. now destruct (k a). Qed.

Lemma bind_raises {A B} (m : M A) (k : A -> M B) t e :
  m = (t, Raise e) -> bind m k = (t, Raise e).
Proof. now intros ->. Qed.

Lemma bind_assoc {A B C} (m : M A) (f : A -> M B) (g : B -> M C) :
  bind (bind m f) g = bind m (fun a => bind (f a) g).
Proof.
  destruct m as [t [a|e]]; [|reflexivity]. cbn [bind].
  destruct (f a) as [t' [b|e']]; cbn [bind]; [|reflexivity].
  destruct (g b) as [t'' r]. now rewrite app_assoc.
Qed.

Lemma bind_ext {A B} (m : M A) (f g : A -> M B) :
  (forall a, f a = g a) -> bind m f = bind m g.
Proof.
  intros H. destruct m as [t [a|e]]; [|reflexivity].
  cbn [bind]. now rewrite H.
Qed.

Lemma surjective_run {A} (m : M A) : m = (trace m, outcome m).
Proof. now destruct m. Qed.

Lemma bind_after {A B} (m : M A) (k : A -> M B) (a : A) :
  outcome m = Return a -> bind m k = (trace m ++ trace (k a), outcome (k a)).
Proof.
  destruct m as [t r]. cbn [outcome trace fst snd]. intros ->.
  now apply bind_returns.
Qed.

Lemma bind_failing {A B} (m : M A) (k : A -> M B) (e : exn) :
  outcome m = Raise e -> bind m k = (trace m, Raise e).
Proof.
  destruct m as [t r]. cbn [outcome trace fst snd]. now intros ->.
Qed.

Lemma printed_app (t u : list Event) : printed (t ++ u) = printed t ++ printed u.
Proof. unfold printed. apply flat_map_app. Qed.

Lemma opened_app (t u : list Event) : opened (t ++ u) = opened t ++ opened u.
Proof. unfold opened. apply flat_map_app. Qed.

Lemma printed_map_Printed (l : list str) : printed (map Printed l) = l.
Proof. induction l as [|s l IH]; simpl; [reflexivity | now f_equal]. Qed.

(** A loop that grows a list by [append] under a condition computes a
    filtered map. *)
Lemma fold_left_append {A B} (p : A -> bool) (f : A -> B) (xs : list A) (acc : list B) :
  fold_left (fun acc x => if p x then acc ++ [f x] else acc) xs acc
  = acc ++ map f (filter p xs).
Proof.
  revert acc; induction xs as [|x xs IH]; intros acc; simpl.
  - now rewrite app_nil_r.
  - rewrite IH. destruct (p x); simpl; [now rewrite <- app_assoc | reflexivity].
Qed.

End PyFacts.

(* ================================================================== *)
(** * debug_rgb.py: what the functions compute *)
(* ================================================================== *)

Module DebugRgbFacts.
Import Py Py.Notations PyFacts DebugRgb.
Local Open Scope py_scope.

(** ** Reading the attribute files *)

(** The text [read_file] hands back for what the file access meets. *)
Definition reading (o : FileOutcome) : str :=
  match o with
  | Text content => strip content
  | OpenRaises _ | ReadRaises _ => lit "ERROR"
  end.

Definition path_of (k : Key) : str :=
  match k with
  | KbdBrightness => LED_BRIGHTNESS
  | KbdColor => LED_COLOR
  | PowerBrightness => POWER_BRIGHTNESS
  | PowerColor => POWER_COLOR
  end.

(** The state a sample of the world shows. *)
Definition snapshot (w : Sample) : State :=
  {| kbd_brightness := reading (file w LED_BRIGHTNESS);
     kbd_color := reading (file w LED_COLOR);
     power_brightness := reading (file w POWER_BRIGHTNESS);
     power_color := reading (file w POWER_COLOR);
     timestamp := drop_last 3 (strftime w (lit "%H:%M:%S.%f")) |}.

Lemma read_file_run (w : Sample) (path : str) :
  read_file w path = ([Opened path], Return (reading (file w path))).
Proof.
  unfold read_file, open_and_read, reading.
  destruct (file w path); reflexivity.
Qed.

Lemma get_snapshot (w : Sample) (k : Key) :
  get (snapshot w) k = reading (file w (path_of k)).
Proof. destruct k; reflexivity. Qed.

Lemma get_rgb_state_run (w : Sample) :
  get_rgb_state w = (map Opened (map path_of KEYS), Return (snapshot w)).
Proof.
  unfold get_rgb_state. rewrite !read_file_run. reflexivity.
Qed.

(** ** Detecting changes *)

Definition changed (o n : State) (k : Key) : bool :=
  negb (str_eqb (get n k) (get o k)).

Definition entry (o n : State) (k : Key) : Change :=
  {| param := key_name k; old := get o k; new := get n k |}.

Lemma changed_true (o n : State) (k : Key) :
  changed o n k = true <-> get o k <> get n k.
Proof.
  unfold changed. rewrite negb_true_iff, str_eqb_neq. intuition congruence.
Qed.

Lemma changed_false (o n : State) (k : Key) :
  changed o n k = false <-> get o k = get n k.
Proof.
  unfold changed. rewrite negb_false_iff, str_eqb_eq. intuition congruence.
Qed.

Lemma detect_changes_filter (o n : State) :
  detect_changes o n = map (entry o n) (filter (changed o n) KEYS).
Proof. exact (fold_left_append (changed o n) (entry o n) KEYS []). Qed.

Lemma key_name_eqb (k k' : Key) :
  str_eqb (key_name k') (key_name k) = true <-> k' = k.
Proof.
  destruct k, k'; vm_compute; split; intros H; try reflexivity; discriminate H.
Qed.

(** The entries of the change list that carry the name of one key. *)
Lemma entries_named (o n : State) (k : Key) :
  filter (fun c => str_eqb (param c) (key_name k)) (detect_changes o n)
  = if changed o n k then [entry o n k] else [].
Proof.
  rewrite detect_changes_filter. unfold KEYS. cbn [filter].
  destruct (changed o n KbdBrightness) eqn:E1,
           (changed o n KbdColor) eqn:E2,
           (changed o n PowerBrightness) eqn:E3,
           (changed o n PowerColor) eqn:E4;
    destruct k; rewrite ?E1, ?E2, ?E3, ?E4; reflexivity.
Qed.

Lemma detect_changes_nil (o n : State) :
  detect_changes o n = [] <-> forall k, get n k = get o k.
Proof.
  rewrite detect_changes_filter. split.
  - intros H k. symmetry. apply changed_false.
    destruct (changed o n k) eqn:E; [|reflexivity].
    assert (Hin : In (entry o n k) (map (entry o n) (filter (changed o n) KEYS))).
    { apply in_map, filter_In. split; [|exact E]. destruct k; simpl; tauto. }
    rewrite H in Hin. destruct Hin.
  - intros H. unfold KEYS. cbn [filter].
    rewrite !(proj2 (changed_false o n _)) by (symmetry; apply H). reflexivity.
Qed.

(** Only the four compared fields matter to the change list. *)
Lemma detect_changes_ext (o n o' n' : State) :
  (forall k, get o k = get o' k) -> (forall k, get n k = get n' k) ->
  detect_changes o n = detect_changes o' n'.
Proof.
  intros Ho Hn. unfold detect_changes, KEYS. cbn [fold_left].
  now rewrite !Ho, !Hn.
Qed.

(** ** Reporting *)

Lemma for_each_print {A} (f : A -> str) (xs : list A) :
  for_each xs (fun x => print (f x)) = (map (fun x => Printed (f x)) xs, Return tt).
Proof.
  induction xs as [|x xs IH]; [reflexivity|].
  cbn [for_each]. rewrite IH. reflexivity.
Qed.

(** One line of a change report. *)
Definition change_line (c : Change) : str :=
  lit "  " ++ param c ++ lit ": " ++ old c ++ lit " -> " ++ new c.

(** The texts of one change report: the time and the changed entries. *)
Definition render (time : str) (changes : list Change) : list str :=
  (lit "CHANGE DETECTED at " ++ time ++ lit ":")
    :: map change_line changes ++ [str_mul (lit "-") 50].

Lemma report_changes_run (last cur : State) (changes : list Change) :
  report_changes last cur changes
  = match changes with
    | [] => ([], Return last)
    | _ :: _ => (map Printed (render (timestamp cur) changes), Return cur)
    end.
Proof.
  destruct changes as [|c changes]; [reflexivity|].
  unfold report_changes. rewrite for_each_print. unfold render.
  cbn [bind print emit ret]. cbn [app map]. rewrite map_app, map_map.
  reflexivity.
Qed.

Lemma iteration_run (last : State) (w : Sample) :
  iteration last w
  = match detect_changes last (snapshot w) with
    | [] => (map Opened (map path_of KEYS) ++ [Slept], Return last)
    | changes =>
        (map Opened (map path_of KEYS)
           ++ map Printed (render (timestamp (snapshot w)) changes) ++ [Slept],
         Return (snapshot w))
    end.
Proof.
  unfold iteration. rewrite get_rgb_state_run.
  rewrite (bind_returns _ _ _ _ eq_refl). cbv beta.
  rewrite report_changes_run.
  destruct (detect_changes last (snapshot w)) as [|c cs]; [reflexivity|].
  unfold bind, emit, ret, trace, outcome. cbn [fst snd].
  now rewrite app_nil_r.
Qed.

Lemma iteration_unchanged (last : State) (w : Sample) :
  (forall k, get (snapshot w) k = get last k) ->
  iteration last w = (map Opened (map path_of KEYS) ++ [Slept], Return last).
Proof.
  intros H. rewrite iteration_run.
  now rewrite (proj2 (detect_changes_nil last (snapshot w)) H).
Qed.

Lemma iteration_changed (last : State) (w : Sample) (k : Key) :
  get (snapshot w) k <> get last k ->
  outcome (iteration last w) = Return (snapshot w).
Proof.
  intros H. rewrite iteration_run.
  destruct (detect_changes last (snapshot w)) eqn:E; [|reflexivity].
  exfalso. apply H. now apply detect_changes_nil.
Qed.

Lemma iteration_opens (last : State) (w : Sample) :
  opened (trace (iteration last w)) = map path_of KEYS
  /\ exists last', outcome (iteration last w) = Return last'.
Proof.
  rewrite iteration_run.
  destruct (detect_changes last (snapshot w)) as [|c cs].
  - split; [reflexivity | now eexists].
  - split; [|now eexists]. unfold trace. cbn [fst].
    rewrite !opened_app. unfold render.
    assert (Hp : forall l, opened (map Printed l) = []).
    { induction l; [reflexivity | assumption]. }
    rewrite Hp. reflexivity.
Qed.

Lemma iterations_opens (ws : list Sample) (last : State) :
  opened (trace (iterations last ws)) = concat (repeat (map path_of KEYS) (length ws))
  /\ exists last', outcome (iterations last ws) = Return last'.
Proof.
  revert last; induction ws as [|w ws IH]; intros last.
  - split; [reflexivity | now eexists].
  - cbn [iterations]. destruct (iteration_opens last w) as [Ho [s Hs]].
    rewrite (bind_after _ _ s Hs).
    unfold trace at 1, outcome at 1. cbn [fst snd].
    destruct (IH s) as [Ho' Hs'].
    rewrite opened_app, Ho, Ho'. split; [reflexivity | exact Hs'].
Qed.

(** The loop continues from the state the earlier passes left. *)
Lemma iterations_app (first later : list Sample) (last : State) :
  iterations last (first ++ later)
  = bind (iterations last first) (fun s => iterations s later).
Proof.
  revert last; induction first as [|w first IH]; intros last.
  - cbn [app iterations]. now rewrite bind_ret.
  - cbn [app iterations]. rewrite bind_assoc.
    apply bind_ext. exact IH.
Qed.

End DebugRgbFacts.

(* ================================================================== *)
(** * debug_rgb.py: start-up, the whole run, and replaying the output *)
(* ================================================================== *)

Module DebugRgbRun.
Import Py Py.Notations PyFacts DebugRgb DebugRgbFacts.
Local Open Scope py_scope.

(** The raw-HID paths for what listing [/dev] meets. *)
Definition hidraw_paths (listing : result (list str)) : list str :=
  match listing with
  | Return names =>
      map (app (lit "/dev/")) (filter (fun d => startswith d (lit "hidraw")) names)
  | Raise _ => []
  end.

Lemma check_hidraw_devices_run (listing : result (list str)) :
  check_hidraw_devices listing = ([Listed (lit "/dev")], Return (hidraw_paths listing)).
Proof.
  destruct listing as [names|e]; [|reflexivity].
  unfold check_hidraw_devices, listdir, hidraw_paths.
  pose proof (fold_left_append (fun d => startswith d (lit "hidraw"))
                (app (lit "/dev/")) names []) as H.
  cbv beta in H. cbn [app] in H.
  cbn [bind emit ret try_except app]. now rewrite H.
Qed.

Lemma hidraw_paths_In (names : list str) (p : str) :
  In p (hidraw_paths (Return names))
  <-> exists d rest, In d names /\ d = lit "hidraw" ++ rest /\ p = lit "/dev/" ++ d.
Proof.
  unfold hidraw_paths. rewrite in_map_iff. split.
  - intros [d [Hp Hd]]. apply filter_In in Hd as [Hd Hs].
    change (startswith d (lit "hidraw") = true) in Hs.
    apply startswith_prefix in Hs as [rest Hrest].
    exists d, rest. now repeat split.
  - intros [d [rest [Hd [Hrest Hp]]]]. exists d. split; [now symmetry|].
    apply filter_In. split; [exact Hd|].
    change (startswith d (lit "hidraw") = true).
    apply startswith_prefix. now exists rest.
Qed.

(** The texts that show a state at start-up: the time, then one line for
    each of the four values. *)
Definition initial_lines (s : State) : list str :=
  [ lit "Initial state at " ++ timestamp s ++ lit ":";
    lit "  " ++ lit "kbd_brightness" ++ lit ": " ++ kbd_brightness s;
    lit "  " ++ lit "kbd_color" ++ lit ": " ++ kbd_color s;
    lit "  " ++ lit "power_brightness" ++ lit ": " ++ power_brightness s;
    lit "  " ++ lit "power_color" ++ lit ": " ++ power_color s;
    str_mul (lit "-") 50 ].

Section Run.
Variable repr_list : list str -> str.

(** The texts printed before the initial state. *)
Definition banner (w : World) : list str :=
  [ lit "RGB Backlight Monitor";
    lit "====================";
    lit "Found HID raw devices: " ++ repr_list (hidraw_paths (dev_listing w));
    lit "Press the RGB backlight button on your G15 keyboard";
    lit "Press Ctrl+C to exit";
    [] ].

Lemma startup_run (w : World) :
  startup repr_list w
  = (map Printed (firstn 2 (banner w)) ++ [Listed (lit "/dev")]
       ++ map Printed (skipn 2 (banner w))
       ++ map Opened (map path_of KEYS)
       ++ map Printed (initial_lines (snapshot (initial w))),
     Return (snapshot (initial w))).
Proof.
  unfold startup. rewrite check_hidraw_devices_run, get_rgb_state_run.
  reflexivity.
Qed.

Lemma startup_printed (w : World) :
  printed (trace (startup repr_list w))
  = banner w ++ initial_lines (snapshot (initial w)).
Proof. rewrite startup_run. reflexivity. Qed.

Lemma startup_opened (w : World) :
  opened (trace (startup repr_list w)) = map path_of KEYS.
Proof. rewrite startup_run. reflexivity. Qed.

Lemma monitor_rgb_changes_run (w : World) :
  monitor_rgb_changes repr_list w
  = (trace (startup repr_list w)
       ++ trace (iterations (snapshot (initial w)) (polls w))
       ++ [Printed (10%N :: lit "Exiting...")],
     Return tt).
Proof.
  unfold monitor_rgb_changes.
  rewrite (bind_after _ _ (snapshot (initial w)))
    by (rewrite startup_run; reflexivity).
  destruct (iterations_opens (polls w) (snapshot (initial w))) as [_ [s Hs]].
  rewrite (bind_after (iterations _ _) _ s Hs).
  unfold raise, try_except, print, emit, trace, outcome. cbn [fst snd].
  now rewrite app_nil_r.
Qed.

End Run.

(** ** Replaying what was printed *)

(** The key a printed name stands for. *)
Definition key_of_name (name : str) : option Key :=
  find (fun k => str_eqb (key_name k) name) KEYS.

(** [state[key] = v] *)
Definition set (s : State) (k : Key) (v : str) : State :=
  match k with
  | KbdBrightness =>
      {| kbd_brightness := v; kbd_color := kbd_color s;
         power_brightness := power_brightness s; power_color := power_color s;
         timestamp := timestamp s |}
  | KbdColor =>
      {| kbd_brightness := kbd_brightness s; kbd_color := v;
         power_brightness := power_brightness s; power_color := power_color s;
         timestamp := timestamp s |}
  | PowerBrightness =>
      {| kbd_brightness := kbd_brightness s; kbd_color := kbd_color s;
         power_brightness := v; power_color := power_color s;
         timestamp := timestamp s |}
  | PowerColor =>
      {| kbd_brightness := kbd_brightness s; kbd_color := kbd_color s;
         power_brightness := power_brightness s; power_color := v;
         timestamp := timestamp s |}
  end.

Definition with_timestamp (s : State) (time : str) : State :=
  {| kbd_brightness := kbd_brightness s; kbd_color := kbd_color s;
     power_brightness := power_brightness s; power_color := power_color s;
     timestamp := time |}.

(** The state a reader holds after one printed change line: the named
    field takes the new value shown. *)
Definition note_change (s : State) (c : Change) : State :=
  match key_of_name (param c) with
  | Some k => set s k (new c)
  | None => s
  end.

(** The state a reader holds after one printed report. *)
Definition replay (s : State) (r : str * list Change) : State :=
  with_timestamp (fold_left note_change (snd r) s) (fst r).

(** The reports a run over the given samples prints, starting from the
    stored state [last]: the time shown and the entries shown. *)
Fixpoint reports (last : State) (samples : list State) : list (str * list Change) :=
  match samples with
  | [] => []
  | cur :: later =>
      match detect_changes last cur with
      | [] => reports last later
      | changes => (timestamp cur, changes) :: reports cur later
      end
  end.

Lemma replay_changes (last cur : State) :
  replay last (timestamp cur, detect_changes last cur) = cur.
Proof.
  rewrite detect_changes_filter. unfold KEYS. cbn [filter].
  destruct (changed last cur KbdBrightness) eqn:E1,
           (changed last cur KbdColor) eqn:E2,
           (changed last cur PowerBrightness) eqn:E3,
           (changed last cur PowerColor) eqn:E4;
    try apply changed_false in E1; try apply changed_false in E2;
    try apply changed_false in E3; try apply changed_false in E4;
    destruct last, cur; simpl in * |-; subst; reflexivity.
Qed.

Lemma iterations_replay (ws : list Sample) (last : State) :
  printed (trace (iterations last ws))
  = flat_map (fun r => render (fst r) (snd r)) (reports last (map snapshot ws))
  /\ outcome (iterations last ws)
     = Return (fold_left replay (reports last (map snapshot ws)) last).
Proof.
  revert last; induction ws as [|w ws IH]; intros last; [now split|].
  cbn [iterations map reports].
  pose proof (iteration_run last w) as Hrun.
  pose proof (replay_changes last (snapshot w)) as Hre.
  destruct (detect_changes last (snapshot w)) as [|c cs].
  - rewrite Hrun, (bind_returns _ _ _ _ eq_refl).
    unfold trace at 1, outcome at 1. cbn [fst snd].
    rewrite !printed_app. destruct (IH last) as [Hp Ho]. now split.
  - rewrite Hrun, (bind_returns _ _ _ _ eq_refl).
    unfold trace at 1, outcome at 1. cbn [fst snd].
    rewrite !printed_app, printed_map_Printed.
    destruct (IH (snapshot w)) as [Hp Ho]. split.
    + rewrite Hp. cbn [flat_map fst snd printed app]. 
      now rewrite <- !app_assoc.
    + rewrite Ho. cbn [fold_left]. now rewrite Hre.
Qed.

End DebugRgbRun.

(* ================================================================== *)
(** * debug_rgb.py: the specified properties *)
(* ================================================================== *)

Module DebugRgbSpec.
Import Py Py.Notations PyFacts DebugRgb DebugRgbFacts DebugRgbRun.
Local Open Scope py_scope.

(** The keys on which two states differ. *)
Lemma differing_keys (o n : State) (k : Key) :
  In k (filter (changed o n) KEYS) <-> get o k <> get n k.
Proof.
  rewrite filter_In, changed_true.
  split; [tauto | intros H; split; [destruct k; simpl; tauto | exact H]].
Qed.

(** C1. For snapshots [S_old] and [S_new] that differ in exactly the
    fields [F], the change list of the monitor holds, for each field of
    [F], exactly one entry under that field's name, and that entry carries
    the value of [S_old] as old value and the value of [S_new] as new
    value; it holds no entry under the name of a field outside [F], and
    every entry it holds is the entry of a field of [F]. *)
Theorem detect_changes_reports_exactly (S_old S_new : State) (F : list Key) :
  (forall k, In k F <-> get S_old k <> get S_new k) ->
  (forall k, In k F ->
     filter (fun c => str_eqb (param c) (key_name k)) (detect_changes S_old S_new)
     = [{| param := key_name k; old := get S_old k; new := get S_new k |}])
  /\ (forall k, ~ In k F ->
        filter (fun c => str_eqb (param c) (key_name k)) (detect_changes S_old S_new)
        = [])
  /\ (forall c, In c (detect_changes S_old S_new) ->
        exists k, In k F
                  /\ c = {| param := key_name k; old := get S_old k; new := get S_new k |}).
Proof.
  intros HF.
  assert (Hch : forall k, changed S_old S_new k = true <-> In k F).
  { intros k. rewrite changed_true. symmetry. apply HF. }
  repeat split.
  - intros k Hk. rewrite entries_named.
    now rewrite (proj2 (Hch k) Hk).
  - intros k Hk. rewrite entries_named.
    destruct (changed S_old S_new k) eqn:E; [|reflexivity].
    exfalso. apply Hk, Hch, E.
  - intros c Hc. rewrite detect_changes_filter in Hc.
    apply in_map_iff in Hc as [k [Hk Hin]].
    exists k. split; [|now symmetry].
    apply HF. now apply differing_keys.
Qed.

(** Two states for the examples: the keyboard brightness and the
    power-on colour differ. *)
Definition state_a : State :=
  {| kbd_brightness := lit "255"; kbd_color := lit "#ff0000";
     power_brightness := lit "0"; power_color := lit "ERROR";
     timestamp := lit "12:00:01" |}.

Definition state_b : State :=
  {| kbd_brightness := lit "128"; kbd_color := lit "#ff0000";
     power_brightness := lit "0"; power_color := lit "#00ff00";
     timestamp := lit "12:00:02" |}.

Lemma detect_changes_reports_exactly_witness :
  (forall k, In k [KbdBrightness; PowerColor] <-> get state_a k <> get state_b k)
  /\ filter (fun c => str_eqb (param c) (key_name PowerColor))
       (detect_changes state_a state_b)
     = [{| param := lit "power_color"; old := lit "ERROR"; new := lit "#00ff00" |}].
Proof.
  split.
  - exact (differing_keys state_a state_b).
  - exact (proj1 (detect_changes_reports_exactly state_a state_b
                    [KbdBrightness; PowerColor] (differing_keys state_a state_b))
             PowerColor (or_intror (or_introl eq_refl))).
Defined.

Section Monitor.
Variable repr_list : list str -> str.

(** C2. [read_file] returns for every path and every world: when opening
    or reading raises, whatever the exception, the value is the text
    [ERROR]; and a pass of the loop over such a world is followed by the
    remaining passes, the whole run ending normally. *)
Theorem read_file_never_raises (w : Sample) (path : str) :
  (exists s, read_file w path = ([Opened path], Return s))
  /\ (forall e, file w path = OpenRaises e ->
        read_file w path = ([Opened path], Return (lit "ERROR")))
  /\ (forall e, file w path = ReadRaises e ->
        read_file w path = ([Opened path], Return (lit "ERROR")))
  /\ (forall last later,
        (exists last', outcome (iterations last (w :: later)) = Return last')
        /\ opened (trace (iterations last (w :: later)))
           = concat (repeat (map path_of KEYS) (S (length later))))
  /\ (forall world, outcome (monitor_rgb_changes repr_list world) = Return tt).
Proof.
  repeat split.
  - eexists. apply read_file_run.
  - intros e He. rewrite read_file_run, He. reflexivity.
  - intros e He. rewrite read_file_run, He. reflexivity.
  - apply (iterations_opens (w :: later) last).
  - apply (iterations_opens (w :: later) last).
  - intros world. now rewrite monitor_rgb_changes_run.
Qed.

(** C3. Started with an effective user id other than zero, the script
    prints its message and exits with status 1, having opened no file;
    started with effective user id zero it runs the monitor, which samples
    the four attribute files once at start-up and once in every pass of
    the loop. *)
Theorem privilege_check (euid : N) (w : World) :
  (euid <> 0%N ->
     main repr_list euid w
     = ([Printed (lit "This script needs to be run as root (sudo)")],
        Raise (SystemExit 1))
     /\ exit_status (main repr_list euid w) = 1%N
     /\ opened (trace (main repr_list euid w)) = [])
  /\ (euid = 0%N ->
        main repr_list euid w = monitor_rgb_changes repr_list w
        /\ opened (trace (main repr_list euid w))
           = concat (repeat (map path_of KEYS) (S (length (polls w))))
        /\ exit_status (main repr_list euid w) = 0%N).
Proof.
  split.
  - intros Hne. apply N.eqb_neq in Hne.
    unfold main. rewrite Hne. now repeat split.
  - intros ->. 
    assert (Hmain : main repr_list 0 w = monitor_rgb_changes repr_list w).
    { unfold main. cbn [N.eqb negb]. now rewrite bind_ret. }
    rewrite Hmain. split; [reflexivity|].
    rewrite monitor_rgb_changes_run. unfold trace at 1, exit_status, outcome.
    cbn [fst snd]. split; [|reflexivity].
    rewrite !opened_app, startup_opened.
    destruct (iterations_opens (polls w) (snapshot (initial w))) as [-> _].
    cbn [repeat concat opened flat_map]. now rewrite app_nil_r.
Qed.

(** C7. At every boundary between passes of the loop, the stored state
    is the state the output shows: start-up printed the initial snapshot
    in full, every later report printed the time and the new value of each
    changed field, and taking the initial snapshot and applying the
    printed reports in order gives the stored state. *)
Theorem last_state_is_last_printed (w : World) (n : nat) :
  outcome (startup repr_list w) = Return (snapshot (initial w))
  /\ printed (trace (startup repr_list w))
     = banner repr_list w ++ initial_lines (snapshot (initial w))
  /\ printed (trace (iterations (snapshot (initial w)) (firstn n (polls w))))
     = flat_map (fun r => render (fst r) (snd r))
         (reports (snapshot (initial w)) (map snapshot (firstn n (polls w))))
  /\ outcome (iterations (snapshot (initial w)) (firstn n (polls w)))
     = Return (fold_left replay
                 (reports (snapshot (initial w)) (map snapshot (firstn n (polls w))))
                 (snapshot (initial w)))
  /\ iterations (snapshot (initial w)) (polls w)
     = bind (iterations (snapshot (initial w)) (firstn n (polls w)))
         (fun last_state => iterations last_state (skipn n (polls w))).
Proof.
  split; [now rewrite startup_run|].
  split; [apply startup_printed|].
  destruct (iterations_replay (firstn n (polls w)) (snapshot (initial w)))
    as [Hprinted Hlast].
  split; [exact Hprinted|]. split; [exact Hlast|].
  rewrite <- iterations_app. now rewrite firstn_skipn.
Qed.

(** A run on a concrete world: the device listing fails, the second pass
    sees a new keyboard brightness and the power-on brightness file
    become readable. *)
Definition show_list (l : list str) : str :=
  lit "[" ++ concat (map (fun s => lit "'" ++ s ++ lit "',") l) ++ lit "]".

Definition file_system (kb kc pb pc : FileOutcome) (clock : str) : Sample :=
  {| file := fun p =>
       if str_eqb p LED_BRIGHTNESS then kb
       else if str_eqb p LED_COLOR then kc
       else if str_eqb p POWER_BRIGHTNESS then pb
       else if str_eqb p POWER_COLOR then pc
       else OpenRaises FileNotFoundError;
     strftime := fun _ => clock |}.

Definition example_world : World :=
  {| dev_listing := Raise PermissionError;
     initial := file_system (Text (lit "255" ++ [10%N])) (Text (lit "#ff0000" ++ [10%N]))
                  (OpenRaises FileNotFoundError) (Text (lit "#000000" ++ [10%N]))
                  (lit "12:00:00.%f");
     polls :=
       [ file_system (Text (lit "255" ++ [10%N])) (Text (lit "#ff0000" ++ [10%N]))
           (OpenRaises FileNotFoundError) (Text (lit "#000000" ++ [10%N]))
           (lit "12:00:01.%f");
         file_system (Text (lit "128" ++ [10%N])) (Text (lit "#ff0000" ++ [10%N]))
           (Text (lit "64" ++ [10%N])) (Text (lit "#000000" ++ [10%N]))
           (lit "12:00:02.%f") ] |}.

Example example_run :
  printed (trace (main show_list 0 example_world))
  = [ lit "RGB Backlight Monitor"; lit "====================";
      lit "Found HID raw devices: []";
      lit "Press the RGB backlight button on your G15 keyboard";
      lit "Press Ctrl+C to exit"; [];
      lit "Initial state at 12:00:00:";
      lit "  kbd_brightness: 255"; lit "  kbd_color: #ff0000";
      lit "  power_brightness: ERROR"; lit "  power_color: #000000";
      str_mul (lit "-") 50;
      lit "CHANGE DETECTED at 12:00:02:";
      lit "  kbd_brightness: 255 -> 128";
      lit "  power_brightness: ERROR -> 64";
      str_mul (lit "-") 50;
      10%N :: lit "Exiting..." ]
  /\ exit_status (main show_list 0 example_world) = 0%N
  /\ main show_list 1000 example_world
     = ([Printed (lit "This script needs to be run as root (sudo)")],
        Raise (SystemExit 1)).
Proof. vm_compute. repeat split. Qed.

(** C8. When listing the device directory raises, the scan returns the
    empty list and start-up goes on to sample the attribute files; when
    the listing succeeds, the scan returns the path of each listed name
    that starts with [hidraw], in order, and nothing else. *)
Theorem hidraw_scan_is_best_effort (w : World) :
  (forall e, check_hidraw_devices (Raise e) = ([Listed (lit "/dev")], Return []))
  /\ (forall e, dev_listing w = Raise e ->
        outcome (startup repr_list w) = Return (snapshot (initial w))
        /\ In (lit "Found HID raw devices: " ++ repr_list [])
             (printed (trace (startup repr_list w)))
        /\ opened (trace (startup repr_list w)) = map path_of KEYS)
  /\ (forall names,
        check_hidraw_devices (Return names)
        = ([Listed (lit "/dev")],
           Return (map (app (lit "/dev/"))
                     (filter (fun d => startswith d (lit "hidraw")) names))))
  /\ (forall names found p,
        outcome (check_hidraw_devices (Return names)) = Return found ->
        (In p found <->
         exists d rest, In d names /\ d = lit "hidraw" ++ rest /\ p = lit "/dev/" ++ d)).
Proof.
  split; [reflexivity|]. split; [|split].
  - intros e He. split; [now rewrite startup_run|]. split.
    + rewrite startup_printed. unfold banner. rewrite He.
      right. right. now left.
    + apply startup_opened.
  - intros names. apply (check_hidraw_devices_run (Return names)).
  - intros names found p Hfound.
    rewrite check_hidraw_devices_run in Hfound. injection Hfound as <-.
    apply hidraw_paths_In.
Qed.

End Monitor.

Definition sample_noon : Sample :=
  file_system (Text (lit " 255" ++ [10%N])) (Text (lit "#ff0000" ++ [10%N]))
            (OpenRaises PermissionError) (Text (lit "0" ++ [10%N]))
            (lit "12:00:02.%f").

Definition sample_later : Sample :=
  file_system (Text (lit "255")) (Text (lit "#ff0000"))
            (ReadRaises OSError) (Text (lit "0"))
            (lit "12:00:03.%f").

Definition state_noon : State :=
  {| kbd_brightness := lit "255"; kbd_color := lit "#ff0000";
     power_brightness := lit "ERROR"; power_color := lit "0";
     timestamp := lit "12:00:01" |}.

(** C6. When the state sampled in a pass agrees with the stored state on
    the four compared fields, the pass finds no change, prints nothing and
    keeps the stored state; the stored state is replaced only when some
    field differs, and then by the sampled state. *)
Theorem unchanged_sample_keeps_state (last cur : State) (w : Sample) :
  outcome (get_rgb_state w) = Return cur ->
  ((forall k, get cur k = get last k) ->
     detect_changes last cur = []
     /\ printed (trace (iteration last w)) = []
     /\ outcome (iteration last w) = Return last)
  /\ (outcome (iteration last w) <> Return last ->
        exists k, get cur k <> get last k)
  /\ ((exists k, get cur k <> get last k) ->
        outcome (iteration last w) = Return cur).
Proof.
  rewrite get_rgb_state_run. intros Hcur. injection Hcur as <-.
  split; [|split].
  - intros Hsame. split; [now apply detect_changes_nil|].
    rewrite (iteration_unchanged last w Hsame). split; [|reflexivity].
    unfold trace. cbn [fst]. rewrite printed_app. reflexivity.
  - intros Hrep. rewrite iteration_run in Hrep.
    destruct (detect_changes last (snapshot w)) as [|c cs] eqn:E;
      [now elim Hrep|].
    assert (Hc : In c (detect_changes last (snapshot w))) by (rewrite E; now left).
    rewrite detect_changes_filter in Hc.
    apply in_map_iff in Hc as [k [_ Hk]].
    exists k. apply differing_keys in Hk. congruence.
  - intros [k Hk]. now apply (iteration_changed last w k).
Qed.

Lemma unchanged_sample_keeps_state_witness :
  outcome (get_rgb_state sample_noon) = Return (snapshot sample_noon)
  /\ timestamp (snapshot sample_noon) <> timestamp state_noon
  /\ printed (trace (iteration state_noon sample_noon)) = []
  /\ outcome (iteration state_noon sample_noon) = Return state_noon.
Proof.
  assert (Hrun : outcome (get_rgb_state sample_noon) = Return (snapshot sample_noon)).
  { rewrite get_rgb_state_run. reflexivity. }
  split; [exact Hrun|]. split; [intros H; vm_compute in H; discriminate H|].
  apply (proj1 (unchanged_sample_keeps_state state_noon (snapshot sample_noon)
                  sample_noon Hrun)).
  intros k; destruct k; reflexivity.
Defined.

(** C9. For a file that can be read, [read_file] returns the content
    without the white space at its two ends.  So when an attribute file
    holds, at two samplings, the same text up to white space around it,
    the two states agree on that attribute, the change list holds no entry
    for it, and if the other attributes agree too the pass prints
    nothing. *)
Theorem read_file_strips (w1 w2 : Sample) (path content : str) (k : Key)
    (l1 r1 l2 r2 core : str) :
  file w1 path = Text content ->
  forallb isspace l1 = true -> forallb isspace r1 = true ->
  forallb isspace l2 = true -> forallb isspace r2 = true ->
  file w1 (path_of k) = Text (l1 ++ core ++ r1) ->
  file w2 (path_of k) = Text (l2 ++ core ++ r2) ->
  read_file w1 path = ([Opened path], Return (strip content))
  /\ stripped content (strip content)
  /\ get (snapshot w1) k = get (snapshot w2) k
  /\ filter (fun c => str_eqb (param c) (key_name k))
       (detect_changes (snapshot w1) (snapshot w2)) = []
  /\ ((forall k', k' <> k -> get (snapshot w2) k' = get (snapshot w1) k') ->
        printed (trace (iteration (snapshot w1) w2)) = []).
Proof.
  intros Hfile Hl1 Hr1 Hl2 Hr2 H1 H2.
  assert (Hk : get (snapshot w1) k = get (snapshot w2) k).
  { rewrite !get_snapshot, H1, H2. unfold reading.
    now rewrite !strip_surrounded. }
  split; [rewrite read_file_run, Hfile; reflexivity|].
  split; [apply strip_stripped|].
  split; [exact Hk|]. split.
  - rewrite entries_named.
    now rewrite (proj2 (changed_false (snapshot w1) (snapshot w2) k) Hk).
  - intros Hothers.
    assert (Hall : forall k', get (snapshot w2) k' = get (snapshot w1) k').
    { intros k'.
      destruct (str_eqb (key_name k') (key_name k)) eqn:E.
      - apply key_name_eqb in E. subst k'. now symmetry.
      - apply Hothers. intros ->. now rewrite str_eqb_refl in E. }
    rewrite (iteration_unchanged (snapshot w1) w2 Hall).
    unfold trace. cbn [fst]. rewrite printed_app. reflexivity.
Qed.

Lemma read_file_strips_witness :
  read_file sample_noon LED_COLOR = ([Opened LED_COLOR], Return (lit "#ff0000"))
  /\ get (snapshot sample_noon) KbdBrightness = get (snapshot sample_later) KbdBrightness
  /\ printed (trace (iteration (snapshot sample_noon) sample_later)) = [].
Proof.
  pose proof (read_file_strips sample_noon sample_later LED_COLOR
                (lit "#ff0000" ++ [10%N]) KbdBrightness
                (lit " ") [10%N] [] [] (lit "255")
                eq_refl eq_refl eq_refl eq_refl eq_refl eq_refl eq_refl)
    as [Hread [_ [Hget [_ Hquiet]]]].
  split; [exact Hread|]. split; [exact Hget|].
  apply Hquiet. intros k' _. destruct k'; reflexivity.
Defined.

(** C10. The change list is a function of the four compared fields alone:
    pairs of states that agree on them give the same change list whatever
    their time stamps, and a sampled state that differs from the stored
    state in its time stamp only gives no change, no report and no
    replacement of the stored state. *)
Theorem changes_ignore_timestamp (o n o' n' last : State) (w : Sample) :
  (forall k, get o k = get o' k) ->
  (forall k, get n k = get n' k) ->
  (forall k, get (snapshot w) k = get last k) ->
  detect_changes o n = detect_changes o' n'
  /\ (forall t1 t2,
        detect_changes (with_timestamp o t1) (with_timestamp n t2)
        = detect_changes o n)
  /\ detect_changes last (snapshot w) = []
  /\ printed (trace (iteration last w)) = []
  /\ outcome (iteration last w) = Return last.
Proof.
  intros Ho Hn Hw.
  split; [now apply detect_changes_ext|].
  split; [intros t1 t2; apply detect_changes_ext; intros k; now destruct k|].
  split; [now apply detect_changes_nil|].
  rewrite (iteration_unchanged last w Hw). split; [|reflexivity].
  unfold trace. cbn [fst]. rewrite printed_app. reflexivity.
Qed.

Lemma changes_ignore_timestamp_witness :
  detect_changes state_a state_b
  = detect_changes (with_timestamp state_a (lit "23:59:59")) (with_timestamp state_b [])
  /\ timestamp state_noon <> timestamp (snapshot sample_later)
  /\ outcome (iteration state_noon sample_later) = Return state_noon.
Proof.
  pose proof (changes_ignore_timestamp state_a state_b
                (with_timestamp state_a (lit "23:59:59")) (with_timestamp state_b [])
                state_noon sample_later
                (fun k => match k with
                          | KbdBrightness | KbdColor | PowerBrightness | PowerColor => eq_refl
                          end)
                (fun k => match k with
                          | KbdBrightness | KbdColor | PowerBrightness | PowerColor => eq_refl
                          end)
                (fun k => match k with
                          | KbdBrightness | KbdColor | PowerBrightness | PowerColor => eq_refl
                          end))
    as [Hsame [_ [_ [_ Hkeep]]]].
  split; [exact Hsame|]. split; [|exact Hkeep].
  intros H; vm_compute in H; discriminate H.
Defined.

End DebugRgbSpec.

(* ================================================================== *)
(** * debug_keys.py: what the functions compute *)
(* ================================================================== *)

Module DebugKeysFacts.
Import Py Py.Notations PyFacts DebugKeys.
Local Open Scope py_scope.

Lemma bind_print {B} (text : str) (k : unit -> M B) :
  bind (print text) k = (Printed text :: trace (k tt), outcome (k tt)).
Proof. exact (bind_returns (print text) k [Printed text] tt eq_refl). Qed.

Lemma bind_emit {B} (ev : Event) (k : unit -> M B) :
  bind (emit ev) k = (ev :: trace (k tt), outcome (k tt)).
Proof. exact (bind_returns (emit ev) k [ev] tt eq_refl). Qed.

Lemma has_key_In (d : list (N * list N)) (k : N) :
  has_key d k = true <-> exists codes, In (k, codes) d.
Proof.
  unfold has_key. rewrite existsb_exists. split.
  - intros [[k' codes] [Hin Hk]]. apply N.eqb_eq in Hk. simpl in Hk. subst k'.
    now exists codes.
  - intros [codes Hin]. exists (k, codes). split; [exact Hin|apply N.eqb_refl].
Qed.

(** A device is monitored when its capabilities include key events. *)
Definition monitored (d : InputDevice) : bool := has_key (capabilities d) EV_KEY.

(** An event is a key press when it is of the key type, in state down. *)
Definition is_key_down (p : Pending) : bool :=
  (type (event p) =? EV_KEY)%N && (value (event p) =? Z.of_N key_down)%Z.

Section Evdev.
Variable repr_capabilities : InputDevice -> str.
Variable keys : N -> option str.

(** ** Device discovery *)

(** The details printed for every device that is enumerated. *)
Definition device_details (d : InputDevice) : list str :=
  [ lit "Device: " ++ name d;
    lit "  Path: " ++ path d;
    lit "  Vendor: 0x" ++ format_04x (vendor d);
    lit "  Product: 0x" ++ format_04x (product d);
    lit "  Capabilities: " ++ repr_capabilities d;
    str_mul (lit "-") 30 ].

(** All the texts printed for one device. *)
Definition device_lines (d : InputDevice) : list str :=
  device_details d
  ++ (if monitored d then [lit "  -> MONITORING: " ++ name d] else [])
  ++ [[]].

Lemma scan_devices_run (sys : Inputs) (paths : list str) (devs : list InputDevice) :
  Forall2 (fun p d => input_device sys p = Return d) paths devs ->
  forall acc,
    outcome (scan_devices repr_capabilities sys paths acc)
    = Return (acc ++ filter monitored devs)
    /\ printed (trace (scan_devices repr_capabilities sys paths acc))
       = flat_map device_lines devs
    /\ opened (trace (scan_devices repr_capabilities sys paths acc)) = paths.
Proof.
  induction 1 as [|p d paths devs Hopen _ IH]; intros acc.
  - cbn [scan_devices filter flat_map]. rewrite app_nil_r. now repeat split.
  - cbn [scan_devices filter flat_map]. unfold open_input_device. rewrite Hopen.
    unfold device_lines at 1, device_details.
    cbn [bind emit print ret].
    destruct (monitored d) eqn:Hmon; unfold monitored in Hmon; rewrite Hmon;
      cbn [bind emit print ret].
    + specialize (IH (acc ++ [d])).
      destruct (scan_devices repr_capabilities sys paths (acc ++ [d])) as [t r].
      unfold printed, opened in *. cbn [trace outcome fst snd] in IH.
      destruct IH as [-> [Hp Ho]].
      cbn [bind emit print ret trace outcome fst snd app flat_map].
      rewrite Hp, Ho, <- app_assoc. now repeat split.
    + specialize (IH acc).
      destruct (scan_devices repr_capabilities sys paths acc) as [t r].
      unfold printed, opened in *. cbn [trace outcome fst snd] in IH.
      destruct IH as [-> [Hp Ho]].
      cbn [bind emit print ret trace outcome fst snd app flat_map].
      rewrite Hp, Ho. now repeat split.
Qed.

Lemma find_all_devices_run (sys : Inputs) (devs : list InputDevice) :
  Forall2 (fun p d => input_device sys p = Return d) (device_paths sys) devs ->
  outcome (find_all_devices repr_capabilities sys) = Return (filter monitored devs)
  /\ printed (trace (find_all_devices repr_capabilities sys))
     = [lit "Available input devices:"; str_mul (lit "=") 50]
       ++ flat_map device_lines devs
       ++ [lit "Total devices to monitor: "
           ++ decimal (N.of_nat (length (filter monitored devs)))]
  /\ opened (trace (find_all_devices repr_capabilities sys)) = device_paths sys.
Proof.
  intros H. destruct (scan_devices_run sys _ _ H []) as [Ho [Hp Hop]].
  unfold find_all_devices.
  destruct (scan_devices repr_capabilities sys (device_paths sys) []) as [t r].
  cbn [trace outcome fst snd app] in Ho, Hp, Hop. subst r.
  cbn [bind emit print ret trace outcome fst snd app].
  unfold printed, opened in *. cbn [flat_map app].
  rewrite !flat_map_app, Hp, Hop. cbn [flat_map app].
  rewrite app_nil_r. now repeat split.
Qed.

(** ** Handling events *)

(** The texts printed for a key press whose code has a name. *)
Definition key_report (device : InputDevice) (p : Pending) : list str :=
  match keys (code (event p)) with
  | Some names =>
      [ lit "Device: " ++ name device;
        lit "Key: " ++ names ++ lit " = " ++ hex (code (event p))
          ++ lit " (" ++ decimal (code (event p)) ++ lit ")";
        lit "Time: " ++ wall_clock p;
        str_mul (lit "-") 40 ]
  | None => []
  end.

Lemma on_event_trace (device : InputDevice) (p : Pending) :
  trace (on_event keys device p)
  = map Printed (if is_key_down p then key_report device p else []).
Proof.
  unfold on_event, is_key_down, categorize, get_keystate, key_report.
  destruct (type (event p) =? EV_KEY)%N; [|reflexivity].
  destruct (keys (code (event p))) as [names|];
    [|now destruct (value (event p) =? Z.of_N key_down)%Z].
  destruct (Z.eqb_spec (value (event p)) 0) as [E|_]; [now rewrite E|].
  destruct (Z.eqb_spec (value (event p)) 2) as [E|_]; [now rewrite E|].
  destruct (Z.eqb_spec (value (event p)) 1) as [E|E].
  - now rewrite E.
  - apply Z.eqb_neq in E. cbn [key_down Z.of_N Pos.of_succ_nat]. rewrite E.
    reflexivity.
Qed.

Lemma on_event_outcome (device : InputDevice) (p : Pending) :
  outcome (on_event keys device p) = Return tt
  \/ outcome (on_event keys device p) = Raise KeyError
  \/ outcome (on_event keys device p) = Raise AttributeError.
Proof.
  unfold on_event, categorize, get_keystate.
  destruct (type (event p) =? EV_KEY)%N; [|now left].
  destruct (keys (code (event p))) as [names|]; [|right; now left].
  destruct (value (event p) =? 0)%Z; [now left|].
  destruct (value (event p) =? 2)%Z; [now left|].
  destruct (value (event p) =? 1)%Z; [now left | right; now right].
Qed.

Lemma for_each_on_event_outcome (device : InputDevice) (evs : list Pending) :
  outcome (for_each evs (on_event keys device)) = Return tt
  \/ outcome (for_each evs (on_event keys device)) = Raise KeyError
  \/ outcome (for_each evs (on_event keys device)) = Raise AttributeError.
Proof.
  induction evs as [|p evs IH]; [now left|].
  cbn [for_each].
  destruct (on_event_outcome device p) as [H|[H|H]].
  - now rewrite (bind_after _ _ tt H).
  - rewrite (bind_failing _ _ _ H). right; now left.
  - rewrite (bind_failing _ _ _ H). right; now right.
Qed.

(** ** What the monitor prints for the events it is handed *)

(** The events handed to the monitor, each with the device it came from. *)
Definition batch (r : InputDevice * result (list Pending)) : list (InputDevice * Pending) :=
  match snd r with
  | Return evs => flat_map (fun p => [(fst r, p)]) evs
  | Raise _ => []
  end.

Definition delivered (devices : list InputDevice) (rounds : list Ready)
    : list (InputDevice * Pending) :=
  flat_map (fun ready => flat_map batch (select devices ready)) rounds.

(** The reports for the key presses among some events. *)
Definition key_reports (evs : list (InputDevice * Pending)) : list str :=
  flat_map (fun dp => key_report (fst dp) (snd dp))
    (filter (fun dp => is_key_down (snd dp)) evs).

Lemma key_reports_app (a b : list (InputDevice * Pending)) :
  key_reports (a ++ b) = key_reports a ++ key_reports b.
Proof. unfold key_reports. now rewrite filter_app, flat_map_app. Qed.

(** [covers all m]: the run [m] handled a front part of the events [all],
    all of them if it ended normally, and printed the reports for the key
    presses of that part and nothing else. *)
Definition covers (all : list (InputDevice * Pending)) (m : M unit) : Prop :=
  exists done rest,
    all = done ++ rest
    /\ printed (trace m) = key_reports done
    /\ (outcome m = Return tt -> rest = []).

Lemma covers_bind (all1 all2 : list (InputDevice * Pending))
    (m : M unit) (k : unit -> M unit) :
  covers all1 m -> covers all2 (k tt) -> covers (all1 ++ all2) (bind m k).
Proof.
  intros [d1 [r1 [H1 [Hp1 Hc1]]]] [d2 [r2 [H2 [Hp2 Hc2]]]].
  destruct m as [t [[]|e]]; cbn [trace outcome fst snd] in *.
  - rewrite (Hc1 eq_refl), app_nil_r in H1. subst all1 all2.
    exists (d1 ++ d2), r2. rewrite (bind_returns _ _ _ _ eq_refl).
    cbn [trace outcome fst snd].
    rewrite printed_app, key_reports_app, Hp1. fold (trace (k tt)).
    rewrite Hp2. split; [now rewrite app_assoc|]. split; [reflexivity|exact Hc2].
  - exists d1, (r1 ++ all2). cbn [bind trace outcome fst snd]. subst all1.
    split; [now rewrite app_assoc|]. split; [exact Hp1|discriminate].
Qed.

Lemma for_each_covers {A} (items : A -> list (InputDevice * Pending))
    (body : A -> M unit) :
  (forall a, covers (items a) (body a)) ->
  forall xs, covers (flat_map items xs) (for_each xs body).
Proof.
  intros H xs. induction xs as [|a xs IH].
  - exists [], []. now repeat split.
  - cbn [flat_map for_each]. apply covers_bind; [apply H | exact IH].
Qed.

Lemma on_event_covers (device : InputDevice) (p : Pending) :
  covers [(device, p)] (on_event keys device p).
Proof.
  exists [(device, p)], []. split; [reflexivity|]. split; [|reflexivity].
  rewrite on_event_trace, printed_map_Printed. unfold key_reports.
  cbn [filter snd]. destruct (is_key_down p); [|reflexivity].
  cbn [flat_map fst snd]. now rewrite app_nil_r.
Qed.

Lemma try_except_quiet {A} (m : M A) (handler : exn -> option (M A)) :
  (forall e, outcome m = Raise e -> handler e = None) ->
  try_except m handler = m.
Proof.
  destruct m as [t [a|e]]; [reflexivity|].
  intros H. cbn [try_except]. now rewrite (H e eq_refl).
Qed.

Lemma read_device_covers (r : InputDevice * result (list Pending)) :
  covers (batch r) (read_device keys r).
Proof.
  unfold read_device, batch. destruct (snd r) as [evs|e].
  - rewrite bind_ret, try_except_quiet.
    + apply for_each_covers. intros p. apply on_event_covers.
    + intros e He.
      destruct (for_each_on_event_outcome (fst r) evs) as [H|[H|H]];
        rewrite H in He; inversion He; reflexivity.
  - exists [], []. split; [reflexivity|].
    destruct e; now repeat split.
Qed.

Lemma select_loop_never_returns (devices : list InputDevice) (rounds : list Ready) :
  outcome (select_loop keys devices rounds) <> Return tt.
Proof.
  induction rounds as [|ready later IH]; [discriminate|].
  cbn [select_loop].
  destruct (for_each (select devices ready) (read_device keys)) as [t [[]|e]].
  - now rewrite (bind_returns _ _ _ _ eq_refl).
  - discriminate.
Qed.

Lemma select_loop_covers (devices : list InputDevice) (rounds : list Ready) :
  covers (delivered devices rounds) (select_loop keys devices rounds).
Proof.
  induction rounds as [|ready later IH].
  - exists [], []. now repeat split.
  - cbn [select_loop delivered flat_map]. apply covers_bind; [|exact IH].
    apply for_each_covers. apply read_device_covers.
Qed.

(** ** Where a run stops *)

(** Handling the event raises: it is of the key type, and its code has no
    name or its value is none of 0, 1 and 2. *)
Definition fails (p : Pending) : bool :=
  (type (event p) =? EV_KEY)%N
  && match keys (code (event p)) with
     | None => true
     | Some _ =>
         negb ((value (event p) =? 0)%Z || (value (event p) =? 2)%Z
               || (value (event p) =? 1)%Z)
     end.

Lemma on_event_sound (device : InputDevice) (p : Pending) :
  fails p = false -> outcome (on_event keys device p) = Return tt.
Proof.
  unfold fails, on_event, categorize, get_keystate.
  destruct (type (event p) =? EV_KEY)%N; [|reflexivity].
  destruct (keys (code (event p))) as [names|]; [|discriminate].
  destruct (value (event p) =? 0)%Z; [reflexivity|].
  destruct (value (event p) =? 2)%Z; [reflexivity|].
  destruct (value (event p) =? 1)%Z; [reflexivity | discriminate].
Qed.

Lemma on_event_failing (device : InputDevice) (p : Pending) :
  fails p = true ->
  trace (on_event keys device p) = []
  /\ exists e, outcome (on_event keys device p) = Raise e
               /\ e <> BlockingIOError /\ e <> KeyboardInterrupt.
Proof.
  unfold fails, on_event, categorize, get_keystate.
  destruct (type (event p) =? EV_KEY)%N; [|discriminate].
  destruct (keys (code (event p))) as [names|].
  - destruct (value (event p) =? 0)%Z; [discriminate|].
    destruct (value (event p) =? 2)%Z; [discriminate|].
    destruct (value (event p) =? 1)%Z; [discriminate|].
    intros _. split; [reflexivity|]. exists AttributeError. now repeat split.
  - intros _. split; [reflexivity|]. exists KeyError. now repeat split.
Qed.

(** The events of one read that are handled without an exception: those
    before the first that fails. *)
Fixpoint before_failure (evs : list Pending) : list Pending :=
  match evs with
  | [] => []
  | p :: rest => if fails p then [] else p :: before_failure rest
  end.

Definition all_sound (evs : list Pending) : bool :=
  forallb (fun p => negb (fails p)) evs.

Lemma key_reports_one (device : InputDevice) (p : Pending) :
  key_reports [(device, p)] = if is_key_down p then key_report device p else [].
Proof.
  unfold key_reports. cbn [filter snd]. destruct (is_key_down p); [|reflexivity].
  cbn [flat_map fst snd]. apply app_nil_r.
Qed.

Lemma read_loop_run (device : InputDevice) (evs : list Pending) :
  printed (trace (for_each evs (on_event keys device)))
  = key_reports (flat_map (fun p => [(device, p)]) (before_failure evs))
  /\ (all_sound evs = true ->
      outcome (for_each evs (on_event keys device)) = Return tt)
  /\ (all_sound evs = false ->
      exists e, outcome (for_each evs (on_event keys device)) = Raise e
                /\ e <> BlockingIOError /\ e <> KeyboardInterrupt).
Proof.
  induction evs as [|p evs [IHp [IHok IHbad]]].
  - split; [reflexivity|]. split; [reflexivity | discriminate].
  - cbn [for_each before_failure all_sound forallb].
    destruct (fails p) eqn:Hf; cbn [negb andb].
    + destruct (on_event_failing device p Hf) as [Ht [e [He Hne]]].
      rewrite (bind_failing _ _ _ He). cbn [trace outcome fst snd].
      fold (trace (on_event keys device p)). rewrite Ht.
      split; [reflexivity|]. split; [discriminate|]. intros _. now exists e.
    + rewrite (bind_after _ _ tt (on_event_sound device p Hf)).
      cbn [trace outcome fst snd flat_map].
      fold (trace (on_event keys device p)).
      fold (trace (for_each evs (on_event keys device))).
      fold (outcome (for_each evs (on_event keys device))).
      rewrite printed_app, on_event_trace, printed_map_Printed, IHp.
      rewrite key_reports_app, key_reports_one.
      split; [reflexivity|]. split; [exact IHok | exact IHbad].
Qed.

(** The read of a ready device ends the run: an event of it fails, or the
    read raises something other than [BlockingIOError]. *)
Definition ends_run (r : InputDevice * result (list Pending)) : bool :=
  match snd r with
  | Return evs => negb (all_sound evs)
  | Raise BlockingIOError => false
  | Raise _ => true
  end.

(** The events of a ready device that are handled. *)
Definition handled_of (r : InputDevice * result (list Pending))
    : list (InputDevice * Pending) :=
  match snd r with
  | Return evs => flat_map (fun p => [(fst r, p)]) (before_failure evs)
  | Raise _ => []
  end.

(** The events handled over a sequence of ready devices: those of each
    device in turn, up to the device that ends the run. *)
Fixpoint handled (entries : Ready) : list (InputDevice * Pending) :=
  match entries with
  | [] => []
  | r :: rest => handled_of r ++ (if ends_run r then [] else handled rest)
  end.

Lemma handled_app (a b : Ready) :
  handled (a ++ b) = handled a ++ (if existsb ends_run a then [] else handled b).
Proof.
  induction a as [|r a IH]; [reflexivity|].
  cbn [app handled existsb]. destruct (ends_run r); cbn [orb].
  - now rewrite !app_nil_r.
  - now rewrite IH, app_assoc.
Qed.

Lemma read_device_run (r : InputDevice * result (list Pending)) :
  printed (trace (read_device keys r)) = key_reports (handled_of r)
  /\ (ends_run r = false -> outcome (read_device keys r) = Return tt)
  /\ (ends_run r = true ->
      exists e, outcome (read_device keys r) = Raise e /\ e <> BlockingIOError).
Proof.
  unfold read_device, handled_of, ends_run. destruct (snd r) as [evs|e].
  - rewrite bind_ret.
    destruct (read_loop_run (fst r) evs) as [Hp [Hok Hbad]].
    destruct (all_sound evs); cbn [negb].
    + specialize (Hok eq_refl).
      destruct (for_each evs (on_event keys (fst r))) as [t o].
      cbn [trace outcome fst snd] in *. subst o. cbn [try_except fst snd].
      split; [exact Hp|]. split; [reflexivity | discriminate].
    + destruct (Hbad eq_refl) as [e [He [Hb Hk]]].
      destruct (for_each evs (on_event keys (fst r))) as [t o].
      cbn [trace outcome fst snd] in *. subst o.
      destruct e; try (now elim Hb); try (now elim Hk);
        cbn [try_except fst snd];
        (split; [exact Hp|]); (split; [discriminate|]); intros _;
        eexists; (split; [reflexivity | discriminate]).
  - destruct e; cbn [bind raise try_except ret trace outcome fst snd app];
      (split; [reflexivity|]);
      (split; [first [reflexivity | discriminate]|]);
      first [discriminate | intros _; eexists; split; [reflexivity | discriminate]].
Qed.

Lemma ready_devices_run (entries : Ready) :
  printed (trace (for_each entries (read_device keys))) = key_reports (handled entries)
  /\ (existsb ends_run entries = false ->
      outcome (for_each entries (read_device keys)) = Return tt)
  /\ (existsb ends_run entries = true ->
      exists e, outcome (for_each entries (read_device keys)) = Raise e
                /\ e <> BlockingIOError).
Proof.
  induction entries as [|r entries [IHp [IHok IHbad]]].
  - split; [reflexivity|]. split; [reflexivity | discriminate].
  - cbn [for_each handled existsb].
    destruct (read_device_run r) as [Hp [Hok Hbad]].
    destruct (ends_run r); cbn [orb].
    + destruct (Hbad eq_refl) as [e [He Hne]].
      rewrite (bind_failing _ _ _ He). cbn [trace outcome fst snd].
      fold (trace (read_device keys r)). rewrite Hp, app_nil_r.
      split; [reflexivity|]. split; [discriminate|]. intros _. now exists e.
    + rewrite (bind_after _ _ tt (Hok eq_refl)). cbn [trace outcome fst snd].
      fold (trace (read_device keys r)).
      fold (trace (for_each entries (read_device keys))).
      fold (outcome (for_each entries (read_device keys))).
      rewrite printed_app, Hp, IHp, key_reports_app.
      split; [reflexivity|]. split; [exact IHok | exact IHbad].
Qed.

Lemma select_loop_run (devices : list InputDevice) (rounds : list Ready) :
  printed (trace (select_loop keys devices rounds))
  = key_reports (handled (flat_map (select devices) rounds))
  /\ (existsb ends_run (flat_map (select devices) rounds) = false ->
      outcome (select_loop keys devices rounds) = Raise KeyboardInterrupt).
Proof.
  induction rounds as [|ready later [IHp IHok]].
  - split; reflexivity.
  - cbn [select_loop flat_map]. rewrite handled_app, existsb_app.
    destruct (ready_devices_run (select devices ready)) as [Hp [Hok Hbad]].
    destruct (existsb ends_run (select devices ready)); cbn [orb].
    + destruct (Hbad eq_refl) as [e [He Hne]].
      rewrite (bind_failing _ _ _ He). cbn [trace outcome fst snd].
      fold (trace (for_each (select devices ready) (read_device keys))).
      rewrite Hp, app_nil_r. split; [reflexivity | discriminate].
    + rewrite (bind_after _ _ tt (Hok eq_refl)). cbn [trace outcome fst snd].
      fold (trace (for_each (select devices ready) (read_device keys))).
      fold (trace (select_loop keys devices later)).
      fold (outcome (select_loop keys devices later)).
      rewrite printed_app, Hp, IHp, key_reports_app.
      split; [reflexivity | exact IHok].
Qed.

(** The events handled are a front part of the events delivered. *)
Lemma before_failure_prefix (evs : list Pending) :
  exists rest, evs = before_failure evs ++ rest
               /\ (all_sound evs = true -> rest = []).
Proof.
  induction evs as [|p evs [rest [IH Hall]]].
  - exists []. now split.
  - cbn [before_failure all_sound forallb]. destruct (fails p); cbn [negb andb].
    + exists (p :: evs). split; [reflexivity | discriminate].
    + exists rest. split; [cbn [app]; now f_equal | exact Hall].
Qed.

Lemma handled_prefix (entries : Ready) :
  exists rest, flat_map batch entries = handled entries ++ rest
               /\ (existsb ends_run entries = false -> rest = []).
Proof.
  induction entries as [|r entries [rest [IH Hall]]].
  - exists []. now split.
  - cbn [flat_map handled existsb]. unfold batch at 1, handled_of, ends_run.
    destruct (snd r) as [evs|e].
    + destruct (before_failure_prefix evs) as [tail [Hevs Htail]].
      destruct (all_sound evs); cbn [negb orb].
      * rewrite (Htail eq_refl), app_nil_r in Hevs. rewrite <- Hevs.
        exists rest. split; [now rewrite IH, app_assoc | exact Hall].
      * exists (flat_map (fun p => [(fst r, p)]) tail ++ flat_map batch entries).
        split; [|discriminate].
        rewrite app_nil_r, app_assoc, <- flat_map_app. now rewrite <- Hevs.
    + destruct e; cbn [app orb];
        first [ exists rest; split; [exact IH | exact Hall]
              | exists (flat_map batch entries); split; [reflexivity | discriminate] ].
Qed.

Lemma delivered_entries (devices : list InputDevice) (rounds : list Ready) :
  delivered devices rounds = flat_map batch (flat_map (select devices) rounds).
Proof.
  unfold delivered. induction rounds as [|ready later IH]; [reflexivity|].
  cbn [flat_map]. now rewrite flat_map_app, IH.
Qed.

(** An event that handling accepts: if it is of the key type, its code
    has a name and its value is 0, 1 or 2. *)
Definition well_formed (p : Pending) : Prop :=
  type (event p) = EV_KEY ->
  keys (code (event p)) <> None
  /\ (value (event p) = 0 \/ value (event p) = 1 \/ value (event p) = 2)%Z.

(** A read that lets the loop go on: nothing pending, or events that are
    all well formed. *)
Definition orderly (r : InputDevice * result (list Pending)) : Prop :=
  snd r = Raise BlockingIOError
  \/ exists evs, snd r = Return evs /\ Forall well_formed evs.

Lemma well_formed_sound (p : Pending) : well_formed p -> fails p = false.
Proof.
  unfold well_formed, fails. intros H.
  destruct (N.eqb_spec (type (event p)) EV_KEY) as [Ht|_]; [|reflexivity].
  destruct (H Ht) as [Hname Hvalue].
  destruct (keys (code (event p))) as [names|]; [|now elim Hname].
  destruct Hvalue as [-> | [-> | ->]]; reflexivity.
Qed.

Lemma orderly_goes_on (entries : Ready) :
  Forall orderly entries -> existsb ends_run entries = false.
Proof.
  induction 1 as [|r entries Hr _ IH]; [reflexivity|].
  cbn [existsb]. rewrite IH, orb_false_r. unfold ends_run.
  destruct Hr as [-> | [evs [-> Hevs]]]; [reflexivity|].
  apply negb_false_iff. unfold all_sound. apply forallb_forall.
  intros p Hp. apply negb_true_iff, well_formed_sound.
  now apply (proj1 (Forall_forall _ _) Hevs).
Qed.

End Evdev.

End DebugKeysFacts.

(* ================================================================== *)
(** * debug_keys.py: the specified properties *)
(* ================================================================== *)

Module DebugKeysSpec.
Import Py Py.Notations PyFacts DebugKeys DebugKeysFacts.
Local Open Scope py_scope.

(** The texts [monitor_events] prints before it waits for events. *)
Definition monitor_banner : list str :=
  [ 10%N :: lit "Monitoring G15 input events...";
    lit "Press keys on your G15 keyboard (Ctrl+C to exit)";
    str_mul (lit "-") 60 ].

Section Evdev.
Variable repr_capabilities : InputDevice -> str.
Variable keys : N -> option str.

(** C4. An event that is not a key press (its type is not the key type,
    or its state is up or autorepeat) makes the monitor print nothing; a
    key press with a named code makes it print the four texts of one key
    report.  Over a whole run, what the monitor prints after its banner is
    exactly the reports of the key presses among the events it handled, in
    order, and nothing else but the closing message; the events it
    handled are those delivered up to the first one whose handling raises,
    or the first read that raises something other than
    [BlockingIOError].  In particular, when every read either finds
    nothing pending or delivers well-formed events only, the monitor
    prints the report of every key press it is handed, and of no other
    event, and ends with the closing message. *)
Theorem only_key_down_is_printed (devices : list InputDevice) (rounds : list Ready) :
  (forall p,
     type (event p) <> EV_KEY \/ value (event p) = Z.of_N key_up
     \/ value (event p) = Z.of_N key_hold ->
     is_key_down p = false)
  /\ (forall device p,
        is_key_down p = false -> trace (on_event keys device p) = [])
  /\ (forall device p names,
        is_key_down p = true -> keys (code (event p)) = Some names ->
        on_event keys device p = (map Printed (key_report keys device p), Return tt)
        /\ length (key_report keys device p) = 4)
  /\ (printed (trace (monitor_events keys devices rounds))
      = monitor_banner
        ++ key_reports keys (handled keys (flat_map (select devices) rounds))
        ++ match outcome (monitor_events keys devices rounds) with
           | Return _ => [10%N :: lit "Exiting..."]
           | Raise _ => []
           end
      /\ exists rest,
           delivered devices rounds
           = handled keys (flat_map (select devices) rounds) ++ rest)
  /\ (Forall (orderly keys) (flat_map (select devices) rounds) ->
        printed (trace (monitor_events keys devices rounds))
        = monitor_banner ++ key_reports keys (delivered devices rounds)
          ++ [10%N :: lit "Exiting..."]
        /\ outcome (monitor_events keys devices rounds) = Return tt).
Proof.
  split; [|split; [|split; [|split]]].
  - intros p [H|[H|H]]; unfold is_key_down.
    + apply N.eqb_neq in H. now rewrite H.
    + rewrite H. apply andb_false_r.
    + rewrite H. apply andb_false_r.
  - intros device p H. now rewrite on_event_trace, H.
  - intros device p names Hdown Hname.
    unfold is_key_down in Hdown. apply andb_true_iff in Hdown as [Ht Hv].
    apply Z.eqb_eq in Hv. cbn [key_down Z.of_N] in Hv.
    unfold on_event, categorize, get_keystate, key_report.
    rewrite Ht, Hname, Hv. now split.
  - split.
    + destruct (select_loop_run keys devices rounds) as [Hp _].
      pose proof (select_loop_never_returns keys devices rounds) as Hnever.
      unfold monitor_events, monitor_banner.
      destruct (select_loop keys devices rounds) as [t [[]|e]];
        cbn [trace outcome fst snd] in Hp, Hnever; [now elim Hnever|].
      destruct e; cbn [bind print emit try_except trace outcome fst snd app];
        unfold printed in *; cbn [flat_map app];
        rewrite ?flat_map_app, Hp; cbn [flat_map app];
        rewrite ?app_nil_r; reflexivity.
    + rewrite delivered_entries.
      destruct (handled_prefix keys (flat_map (select devices) rounds))
        as [rest [Hrest _]].
      now exists rest.
  - intros Horderly.
    pose proof (orderly_goes_on keys _ Horderly) as Hgo.
    destruct (select_loop_run keys devices rounds) as [Hp Hend].
    specialize (Hend Hgo).
    destruct (handled_prefix keys (flat_map (select devices) rounds))
      as [rest [Hrest Hnone]].
    rewrite (Hnone Hgo), app_nil_r, <- delivered_entries in Hrest.
    rewrite <- Hrest in Hp.
    unfold monitor_events, monitor_banner.
    destruct (select_loop keys devices rounds) as [t o].
    cbn [trace outcome fst snd] in Hp, Hend. subst o.
    cbn [bind print emit try_except trace outcome fst snd app].
    unfold printed in *. cbn [flat_map app].
    rewrite flat_map_app, Hp. cbn [flat_map app]. now split.
Qed.

(** C5. When every enumerated device can be opened, the discovery step
    returns, in order, exactly the devices whose capabilities include key
    events; and it prints the details of every enumerated device, whether
    it goes into the returned list or not. *)
Theorem find_all_devices_selects_key_devices (sys : Inputs) (devs : list InputDevice) :
  Forall2 (fun p d => input_device sys p = Return d) (device_paths sys) devs ->
  outcome (find_all_devices repr_capabilities sys)
  = Return (filter (fun d => has_key (capabilities d) EV_KEY) devs)
  /\ (forall d,
        In d (filter (fun d => has_key (capabilities d) EV_KEY) devs)
        <-> In d devs /\ exists codes, In (EV_KEY, codes) (capabilities d))
  /\ printed (trace (find_all_devices repr_capabilities sys))
     = [lit "Available input devices:"; str_mul (lit "=") 50]
       ++ flat_map (device_lines repr_capabilities) devs
       ++ [lit "Total devices to monitor: "
           ++ decimal (N.of_nat (length
                (filter (fun d => has_key (capabilities d) EV_KEY) devs)))]
  /\ (forall d line,
        In d devs -> In line (device_details repr_capabilities d) ->
        In line (printed (trace (find_all_devices repr_capabilities sys)))).
Proof.
  intros Hopen.
  destruct (find_all_devices_run repr_capabilities sys devs Hopen) as [Ho [Hp _]].
  split; [exact Ho|]. split; [|split; [exact Hp|]].
  - intros d. rewrite filter_In, has_key_In. reflexivity.
  - intros d line Hd Hline. rewrite Hp.
    apply in_or_app. right. apply in_or_app. left.
    apply in_flat_map. exists d. split; [exact Hd|].
    unfold device_lines. apply in_or_app. now left.
Qed.

End Evdev.

(** A keyboard and a sensor for the examples: only the keyboard has key
    events among its capabilities. *)
Definition keyboard : InputDevice :=
  {| path := lit "/dev/input/event3"; name := lit "G15 Keyboard";
     vendor := 0x046d; product := 0xc222;
     capabilities := [(0%N, []); (1%N, [30%N; 48%N])] |}.

Definition sensor : InputDevice :=
  {| path := lit "/dev/input/event5"; name := lit "Lid Sensor";
     vendor := 0x0001; product := 0x0000;
     capabilities := [(0%N, []); (5%N, [0%N])] |}.

Definition two_devices : Inputs :=
  {| device_paths := [path keyboard; path sensor];
     input_device := fun p =>
       if str_eqb p (path keyboard) then Return keyboard
       else if str_eqb p (path sensor) then Return sensor
       else Raise FileNotFoundError |}.

Definition no_repr (d : InputDevice) : str := lit "{...}".

Lemma find_all_devices_selects_key_devices_witness :
  outcome (find_all_devices no_repr two_devices) = Return [keyboard]
  /\ In (lit "Device: Lid Sensor")
       (printed (trace (find_all_devices no_repr two_devices))).
Proof.
  assert (Hopen : Forall2 (fun p d => input_device two_devices p = Return d)
                    (device_paths two_devices) [keyboard; sensor]).
  { repeat constructor. }
  destruct (find_all_devices_selects_key_devices no_repr two_devices
              [keyboard; sensor] Hopen) as [Ho [_ [_ Hall]]].
  split; [exact Ho|].
  apply (Hall sensor); [right; now left | now left].
Defined.

(** A scripted sequence on the keyboard: a scan-code event, then key A
    down, a synchronisation event, key A held, key A up, key B down. *)
Definition key_names (c : N) : option str :=
  if (c =? 30)%N then Some (lit "KEY_A")
  else if (c =? 48)%N then Some (lit "KEY_B")
  else None.

Definition at_time (clock : string) (t c : N) (v : Z) : Pending :=
  {| event := {| type := t; code := c; value := v |}; wall_clock := lit clock |}.

Definition scripted : list Ready :=
  [ [(keyboard, Return [at_time "10:00:00" 4 4 30; at_time "10:00:00" 1 30 1;
                        at_time "10:00:00" 0 0 0])];
    [(keyboard, Raise BlockingIOError)];
    [(keyboard, Return [at_time "10:00:01" 1 30 2; at_time "10:00:01" 1 30 0]);
     (sensor, Return [at_time "10:00:01" 1 30 1])];
    [(keyboard, Return [at_time "10:00:02" 1 48 1])] ].

Lemma only_key_down_is_printed_witness :
  printed (trace (monitor_events key_names [keyboard] scripted))
  = monitor_banner
    ++ [ lit "Device: G15 Keyboard"; lit "Key: KEY_A = 0x1e (30)";
         lit "Time: 10:00:00"; str_mul (lit "-") 40;
         lit "Device: G15 Keyboard"; lit "Key: KEY_B = 0x30 (48)";
         lit "Time: 10:00:02"; str_mul (lit "-") 40 ]
    ++ [10%N :: lit "Exiting..."]
  /\ outcome (monitor_events key_names [keyboard] scripted) = Return tt.
Proof.
  assert (Horderly : Forall (orderly key_names)
                       (flat_map (select [keyboard]) scripted)).
  { let l := eval vm_compute in (flat_map (select [keyboard]) scripted) in
    change (Forall (orderly key_names) l).
    repeat (apply Forall_cons || apply Forall_nil);
      (first [ left; reflexivity
             | right; eexists; split; [reflexivity|] ]);
      repeat (apply Forall_cons || apply Forall_nil);
      unfold well_formed; cbn; intros Ht;
      (first [ discriminate Ht
             | split; [discriminate | intuition reflexivity] ]). }
  destruct (only_key_down_is_printed key_names [keyboard] scripted)
    as [_ [_ [_ [_ Hall]]]].
  destruct (Hall Horderly) as [Hprinted Hout].
  split; [|exact Hout].
  rewrite Hprinted. vm_compute. reflexivity.
Defined.

Example scripted_run :
  printed (trace (monitor_events key_names [keyboard] scripted))
  = monitor_banner
    ++ [ lit "Device: G15 Keyboard"; lit "Key: KEY_A = 0x1e (30)";
         lit "Time: 10:00:00"; str_mul (lit "-") 40;
         lit "Device: G15 Keyboard"; lit "Key: KEY_B = 0x30 (48)";
         lit "Time: 10:00:02"; str_mul (lit "-") 40;
         10%N :: lit "Exiting..." ].
Proof. vm_compute. reflexivity. Qed.

End DebugKeysSpec.

(* ================================================================== *)
(** * debug_rgb.py: further properties of the code *)
(* ================================================================== *)

Module DebugRgbMore.
Import Py Py.Notations PyFacts DebugRgb DebugRgbFacts DebugRgbRun.
Local Open Scope py_scope.

(** ** Helper lemmas *)

Lemma printed_map_Opened (l : list str) : printed (map Opened l) = [].
Proof. induction l as [|p l IH]; [reflexivity | exact IH]. Qed.

(** What one pass prints. *)
Lemma iteration_printed (last : State) (w : Sample) :
  printed (trace (iteration last w))
  = match detect_changes last (snapshot w) with
    | [] => []
    | c :: cs => render (timestamp (snapshot w)) (c :: cs)
    end.
Proof.
  rewrite iteration_run.
  destruct (detect_changes last (snapshot w)) as [|c cs];
    unfold trace; cbn [fst];
    rewrite !printed_app, printed_map_Opened, ?printed_map_Printed;
    [reflexivity | apply app_nil_r].
Qed.

Lemma strip_blank (s : str) : forallb isspace s = true -> strip s = [].
Proof. intros H. unfold strip. now rewrite (lstrip_spaces s H). Qed.

(** A text with no white space at either end is left alone by [strip]. *)
Lemma strip_fixed (s : str) :
  match s with [] => True | c :: _ => isspace c = false end ->
  match rev s with [] => True | c :: _ => isspace c = false end ->
  strip s = s.
Proof.
  intros Hhead Hlast.
  assert (Hl : forall t, match t with [] => True | c :: _ => isspace c = false end ->
                         lstrip t = t).
  { intros [|c t] H; [reflexivity|]. simpl. now rewrite H. }
  unfold strip, rstrip. rewrite (Hl s Hhead), (Hl (rev s) Hlast).
  apply rev_involutive.
Qed.

Lemma strip_idempotent (s : str) : strip (strip s) = strip s.
Proof.
  destruct (strip_stripped s) as [_ [Hhead Hlast]]. now apply strip_fixed.
Qed.

Lemma reading_trimmed (o : FileOutcome) : strip (reading o) = reading o.
Proof. destruct o; [reflexivity | reflexivity | apply strip_idempotent]. Qed.

(** A field whose sampled value differs from the stored one gets its line
    in the report of the pass. *)
Lemma changed_field_is_printed (last : State) (w : Sample) (k : Key) :
  get (snapshot w) k <> get last k ->
  In (lit "  " ++ key_name k ++ lit ": " ++ get last k ++ lit " -> " ++ get (snapshot w) k)
     (printed (trace (iteration last w))).
Proof.
  intros Hk. rewrite iteration_printed.
  assert (Hin : In (entry last (snapshot w) k) (detect_changes last (snapshot w))).
  { rewrite detect_changes_filter. apply in_map, filter_In.
    split; [destruct k; simpl; tauto|]. apply changed_true. congruence. }
  destruct (detect_changes last (snapshot w)) as [|c cs]; [destruct Hin|].
  unfold render. right. apply in_or_app. left.
  exact (in_map change_line _ _ Hin).
Qed.

(** ** The properties *)

(** X1. [get_rgb_state] always returns.  It opens the four attribute
    files once each, in the order keyboard brightness, keyboard colour,
    power-on brightness, power-on colour, whichever of them fail; the value
    of each field depends on its own file only; and the time stamp is the
    text of the clock without its last three characters. *)
Theorem get_rgb_state_reads_all (w : Sample) :
  exists s,
    get_rgb_state w
    = (map Opened [LED_BRIGHTNESS; LED_COLOR; POWER_BRIGHTNESS; POWER_COLOR],
       Return s)
    /\ (forall k,
          get s k = match file w (path_of k) with
                    | Text content => strip content
                    | OpenRaises _ | ReadRaises _ => lit "ERROR"
                    end)
    /\ (exists tail,
          strftime w (lit "%H:%M:%S.%f") = timestamp s ++ tail
          /\ length tail = Nat.min 3 (length (strftime w (lit "%H:%M:%S.%f")))).
Proof.
  exists (snapshot w). split; [apply get_rgb_state_run|]. split.
  - intros k. rewrite get_snapshot. reflexivity.
  - cbn [snapshot timestamp]. unfold drop_last.
    set (clock := strftime w (lit "%H:%M:%S.%f")).
    exists (skipn (length clock - 3) clock). split.
    + symmetry. apply firstn_skipn.
    + rewrite length_skipn. lia.
Qed.

(** X2. While the sampled states agree with the stored state on the four
    compared fields, the loop prints nothing, however many passes it
    makes, and the stored state stays what it was. *)
Theorem quiet_while_unchanged (last : State) (ws : list Sample) :
  (forall w, In w ws -> forall k, get (snapshot w) k = get last k) ->
  printed (trace (iterations last ws)) = []
  /\ outcome (iterations last ws) = Return last
  /\ length (opened (trace (iterations last ws))) = 4 * length ws.
Proof.
  induction ws as [|w ws IH]; intros Hsame; [now repeat split|].
  cbn [iterations].
  rewrite (iteration_unchanged last w (Hsame w (or_introl eq_refl))).
  rewrite (bind_returns _ _ _ _ eq_refl).
  destruct IH as [Hp [Ho Hn]]; [intros w' Hw'; apply Hsame; now right|].
  cbn [trace outcome fst snd]. fold (trace (iterations last ws)).
  fold (outcome (iterations last ws)).
  rewrite !printed_app, !opened_app, !length_app, Hp, Ho, Hn.
  rewrite printed_map_Opened. cbn [length]. split; [reflexivity|].
  split; [reflexivity|]. cbn. lia.
Qed.

(** The reports obtained by comparing every sample with the one before. *)
Fixpoint consecutive (prev : State) (samples : list State) : list (str * list Change) :=
  match samples with
  | [] => []
  | cur :: later =>
      match detect_changes prev cur with
      | [] => consecutive cur later
      | changes => (timestamp cur, changes) :: consecutive cur later
      end
  end.

Lemma reports_consecutive (samples : list State) (last prev : State) :
  (forall k, get last k = get prev k) ->
  reports last samples = consecutive prev samples.
Proof.
  revert last prev; induction samples as [|cur later IH]; intros last prev Hagree;
    [reflexivity|].
  cbn [reports consecutive].
  rewrite <- (detect_changes_ext last cur prev cur Hagree (fun k => eq_refl)).
  destruct (detect_changes last cur) as [|c cs] eqn:E.
  - apply IH. intros k. symmetry. now apply detect_changes_nil.
  - f_equal. now apply IH.
Qed.

(** X3. Although the loop compares each sample with the stored state,
    and replaces the stored state only on a change, its reports are those
    of comparing each sample with the sample before it (the first with the
    state it started from). *)
Theorem reports_compare_consecutive_samples (last : State) (ws : list Sample) :
  printed (trace (iterations last ws))
  = flat_map (fun r => render (fst r) (snd r)) (consecutive last (map snapshot ws)).
Proof.
  rewrite (proj1 (iterations_replay ws last)).
  now rewrite (reports_consecutive (map snapshot ws) last last).
Qed.

(** X4. When an attribute file that had a value can no longer be opened
    or read, the pass reports the field as going from that value to
    [ERROR], and stores [ERROR] for it. *)
Theorem failure_is_reported (last : State) (w : Sample) (k : Key) (e : exn) :
  file w (path_of k) = OpenRaises e \/ file w (path_of k) = ReadRaises e ->
  get last k <> lit "ERROR" ->
  In (lit "  " ++ key_name k ++ lit ": " ++ get last k ++ lit " -> " ++ lit "ERROR")
     (printed (trace (iteration last w)))
  /\ exists s, outcome (iteration last w) = Return s /\ get s k = lit "ERROR".
Proof.
  intros Hfail Hold.
  assert (Hnew : get (snapshot w) k = lit "ERROR").
  { rewrite get_snapshot. destruct Hfail as [-> | ->]; reflexivity. }
  assert (Hne : get (snapshot w) k <> get last k) by congruence.
  split.
  - rewrite <- Hnew. now apply changed_field_is_printed.
  - exists (snapshot w). split; [now apply (iteration_changed last w k) | exact Hnew].
Qed.

(** X5. When an attribute file that gave [ERROR] becomes readable, with
    a content that is not itself [ERROR], the pass reports the field as
    going from [ERROR] to the stripped content. *)
Theorem recovery_is_reported (last : State) (w : Sample) (k : Key) (content : str) :
  file w (path_of k) = Text content ->
  get last k = lit "ERROR" ->
  strip content <> lit "ERROR" ->
  In (lit "  " ++ key_name k ++ lit ": " ++ lit "ERROR" ++ lit " -> " ++ strip content)
     (printed (trace (iteration last w)))
  /\ exists s, outcome (iteration last w) = Return s /\ get s k = strip content.
Proof.
  intros Hfile Hold Hcontent.
  assert (Hnew : get (snapshot w) k = strip content).
  { rewrite get_snapshot, Hfile. reflexivity. }
  assert (Hne : get (snapshot w) k <> get last k) by congruence.
  split.
  - rewrite <- Hnew, <- Hold. now apply changed_field_is_printed.
  - exists (snapshot w). split; [now apply (iteration_changed last w k) | exact Hnew].
Qed.

(** X6. A file whose content is the word [ERROR], with or without white
    space around it, reads exactly like a file that cannot be opened or
    read: [read_file] gives the same run for both. *)
Theorem error_marker_is_ambiguous (w1 w2 : Sample) (path l r : str) (e : exn) :
  forallb isspace l = true -> forallb isspace r = true ->
  file w1 path = Text (l ++ lit "ERROR" ++ r) ->
  file w2 path = OpenRaises e \/ file w2 path = ReadRaises e ->
  read_file w1 path = read_file w2 path.
Proof.
  intros Hl Hr H1 H2. rewrite !read_file_run, H1. unfold reading.
  rewrite (strip_surrounded l (lit "ERROR") r Hl Hr).
  destruct H2 as [-> | ->]; reflexivity.
Qed.

(** X7. A file that is empty, or holds white space only, reads as the
    empty text, which is not the error marker. *)
Theorem blank_file_reads_empty (w : Sample) (path content : str) :
  file w path = Text content ->
  forallb isspace content = true ->
  read_file w path = ([Opened path], Return [])
  /\ read_file w path <> ([Opened path], Return (lit "ERROR")).
Proof.
  intros Hfile Hblank. rewrite read_file_run, Hfile. unfold reading.
  rewrite (strip_blank content Hblank). split; [reflexivity | discriminate].
Qed.

(** X8. Every value [get_rgb_state] puts into a state is free of white
    space at its two ends: stripping it again changes nothing. *)
Theorem sampled_values_are_trimmed (w : Sample) (k : Key) :
  exists s, outcome (get_rgb_state w) = Return s /\ strip (get s k) = get s k.
Proof.
  exists (snapshot w). split; [now rewrite get_rgb_state_run|].
  rewrite get_snapshot. apply reading_trimmed.
Qed.

(** X9. A change list has at most four entries, so a pass prints either
    nothing or between three and six texts. *)
Theorem pass_output_is_bounded (last other : State) (w : Sample) :
  length (detect_changes last other) <= 4
  /\ (printed (trace (iteration last w)) = []
      \/ 3 <= length (printed (trace (iteration last w))) <= 6).
Proof.
  assert (Hlen : forall n, length (detect_changes last n) <= 4).
  { intros n. rewrite detect_changes_filter, length_map.
    apply (filter_length_le (changed last n) KEYS). }
  split; [apply Hlen|]. rewrite iteration_printed.
  specialize (Hlen (snapshot w)).
  destruct (detect_changes last (snapshot w)) as [|c cs]; [now left|].
  right. unfold render. cbn [length] in *.
  rewrite length_app, length_map. cbn [length]. lia.
Qed.

(** ** Concrete instances *)

Definition sample_unplugged : Sample :=
  DebugRgbSpec.file_system (OpenRaises PermissionError) (Text (lit "#ff0000"))
    (Text (lit "0")) (ReadRaises OSError) (lit "12:00:04.%f").

Definition sample_marker : Sample :=
  DebugRgbSpec.file_system (Text (lit " ERROR" ++ [10%N])) (Text [10%N])
    (Text (lit "0")) (Text (lit "#00ff00")) (lit "12:00:05.%f").

Lemma quiet_while_unchanged_witness :
  printed (trace (iterations DebugRgbSpec.state_noon
                    [DebugRgbSpec.sample_noon; DebugRgbSpec.sample_later])) = []
  /\ outcome (iterations DebugRgbSpec.state_noon
                [DebugRgbSpec.sample_noon; DebugRgbSpec.sample_later])
     = Return DebugRgbSpec.state_noon.
Proof.
  assert (Hsame : forall w,
             In w [DebugRgbSpec.sample_noon; DebugRgbSpec.sample_later] ->
             forall k, get (snapshot w) k = get DebugRgbSpec.state_noon k).
  { intros w [<- | [<- | []]] k; destruct k; reflexivity. }
  destruct (quiet_while_unchanged DebugRgbSpec.state_noon _ Hsame) as [Hp [Ho _]].
  now split.
Defined.

Lemma failure_is_reported_witness :
  In (lit "  kbd_brightness: 255 -> ERROR")
     (printed (trace (iteration DebugRgbSpec.state_a sample_unplugged))).
Proof.
  refine (proj1 (failure_is_reported DebugRgbSpec.state_a sample_unplugged
                   KbdBrightness PermissionError (or_introl eq_refl) _)).
  intros H; vm_compute in H; discriminate H.
Defined.

Lemma recovery_is_reported_witness :
  In (lit "  power_color: ERROR -> 0")
     (printed (trace (iteration DebugRgbSpec.state_a DebugRgbSpec.sample_noon))).
Proof.
  refine (proj1 (recovery_is_reported DebugRgbSpec.state_a DebugRgbSpec.sample_noon
                   PowerColor (lit "0" ++ [10%N]) eq_refl eq_refl _)).
  intros H; vm_compute in H; discriminate H.
Defined.

Lemma error_marker_is_ambiguous_witness :
  read_file sample_marker LED_BRIGHTNESS = read_file sample_unplugged LED_BRIGHTNESS.
Proof.
  exact (error_marker_is_ambiguous sample_marker sample_unplugged LED_BRIGHTNESS
           (lit " ") [10%N] PermissionError eq_refl eq_refl eq_refl
           (or_introl eq_refl)).
Defined.

Lemma blank_file_reads_empty_witness :
  read_file sample_marker LED_COLOR = ([Opened LED_COLOR], Return []).
Proof.
  exact (proj1 (blank_file_reads_empty sample_marker LED_COLOR [10%N]
                  eq_refl eq_refl)).
Defined.

End DebugRgbMore.

(* ================================================================== *)
(** * debug_keys.py: further properties of the code *)
(* ================================================================== *)

Module DebugKeysMore.
Import Py Py.Notations PyFacts DebugKeys DebugKeysFacts.
Local Open Scope py_scope.

(** A read that finds nothing pending. *)
Definition would_block (r : InputDevice * result (list Pending)) : bool :=
  match snd r with
  | Raise BlockingIOError => true
  | _ => false
  end.

Lemma filter_comm {A} (f g : A -> bool) (l : list A) :
  filter f (filter g l) = filter g (filter f l).
Proof.
  induction l as [|x l IH]; [reflexivity|]. cbn [filter].
  destruct (f x) eqn:Hf, (g x) eqn:Hg; cbn [filter]; rewrite ?Hf, ?Hg, IH; reflexivity.
Qed.

(** Elements on which the body does nothing can be left out of a loop. *)
Lemma for_each_skip {A} (keep : A -> bool) (body : A -> M unit) (xs : list A) :
  (forall x, keep x = false -> body x = ret tt) ->
  for_each (filter keep xs) body = for_each xs body.
Proof.
  intros H. induction xs as [|x xs IH]; [reflexivity|].
  cbn [filter for_each]. destruct (keep x) eqn:E.
  - cbn [for_each]. now rewrite IH.
  - rewrite (H x E), bind_ret. exact IH.
Qed.

Lemma for_each_never {A} (e : exn) (body : A -> M unit) (xs : list A) :
  (forall x, outcome (body x) <> Raise e) ->
  outcome (for_each xs body) <> Raise e.
Proof.
  intros H. induction xs as [|x xs IH]; [discriminate|].
  cbn [for_each]. specialize (H x).
  destruct (body x) as [t [[]|e']].
  - now rewrite (bind_returns _ _ _ _ eq_refl).
  - exact H.
Qed.

Section Evdev.
Variable repr_capabilities : InputDevice -> str.
Variable keys : N -> option str.

Lemma read_device_never_blocks (r : InputDevice * result (list Pending)) :
  outcome (read_device keys r) <> Raise BlockingIOError.
Proof.
  unfold read_device. destruct (snd r) as [evs|e].
  - rewrite bind_ret.
    pose proof (for_each_on_event_outcome keys (fst r) evs) as H.
    destruct (for_each evs (on_event keys (fst r))) as [t [[]|e]];
      cbn [outcome snd] in H; [discriminate|].
    destruct H as [H|[H|H]]; inversion H; subst; discriminate.
  - destruct e; discriminate.
Qed.

Lemma select_loop_never_blocks (devices : list InputDevice) (rounds : list Ready) :
  outcome (select_loop keys devices rounds) <> Raise BlockingIOError.
Proof.
  induction rounds as [|ready later IH]; [discriminate|].
  cbn [select_loop].
  pose proof (for_each_never BlockingIOError (read_device keys)
                (select devices ready) read_device_never_blocks) as H.
  destruct (for_each (select devices ready) (read_device keys)) as [t [[]|e]].
  - now rewrite (bind_returns _ _ _ _ eq_refl).
  - exact H.
Qed.

(** What [main] does once it is past the help flag. *)
Lemma main_without_help (argv : list str) (sys : Inputs) (rounds : list Ready) :
  wants_help argv = false ->
  main repr_capabilities keys argv sys rounds
  = bind (print (lit "G15 Keyboard Key Code Debug Tool")) (fun _ =>
    bind (print (str_mul (lit "=") 40)) (fun _ =>
    bind (find_all_devices repr_capabilities sys) (fun devices =>
      match devices with
      | [] =>
          bind (print (lit "No input devices found!")) (fun _ =>
          print (lit "Make sure you have permissions to access input devices."))
      | _ :: _ => monitor_events keys devices rounds
      end))).
Proof. intros H. unfold main. now rewrite H. Qed.

(** The device scan when one of the devices cannot be opened. *)
Lemma scan_devices_fails (sys : Inputs) (pre : list str) (devs : list InputDevice)
    (p : str) (post : list str) (e : exn) :
  Forall2 (fun q d => input_device sys q = Return d) pre devs ->
  input_device sys p = Raise e ->
  forall acc,
    outcome (scan_devices repr_capabilities sys (pre ++ p :: post) acc) = Raise e
    /\ printed (trace (scan_devices repr_capabilities sys (pre ++ p :: post) acc))
       = flat_map (device_lines repr_capabilities) devs
    /\ opened (trace (scan_devices repr_capabilities sys (pre ++ p :: post) acc))
       = pre ++ [p].
Proof.
  intros Hpre Hp. induction Hpre as [|q d pre devs Hopen _ IH]; intros acc.
  - cbn [app scan_devices]. unfold open_input_device. rewrite Hp.
    now repeat split.
  - cbn [app scan_devices flat_map]. unfold open_input_device. rewrite Hopen.
    unfold device_lines at 1, device_details.
    cbn [bind emit print ret].
    destruct (monitored d) eqn:Hmon; unfold monitored in Hmon; rewrite Hmon;
      cbn [bind emit print ret].
    + specialize (IH (acc ++ [d])).
      destruct (scan_devices repr_capabilities sys (pre ++ p :: post) (acc ++ [d]))
        as [t r].
      unfold printed, opened in *. cbn [trace outcome fst snd] in IH.
      destruct IH as [-> [Hpr Hop]].
      cbn [bind emit print ret trace outcome fst snd app flat_map].
      rewrite Hpr, Hop. now repeat split.
    + specialize (IH acc).
      destruct (scan_devices repr_capabilities sys (pre ++ p :: post) acc) as [t r].
      unfold printed, opened in *. cbn [trace outcome fst snd] in IH.
      destruct IH as [-> [Hpr Hop]].
      cbn [bind emit print ret trace outcome fst snd app flat_map].
      rewrite Hpr, Hop. now repeat split.
Qed.

(** X10. [main] prints the documentation string, and does nothing else,
    exactly when the command line has a first argument and that argument
    is [-h] or [--help]: the flag is not looked for in later positions,
    and in every other case the run starts with the title instead. *)
Theorem help_flag_decides (argv : list str) (sys : Inputs) (rounds : list Ready) :
  main repr_capabilities keys argv sys rounds = ([Printed doc], Return tt)
  <-> exists prog arg rest,
        argv = prog :: arg :: rest /\ (arg = lit "-h" \/ arg = lit "--help").
Proof.
  split.
  - intros Hrun. destruct (wants_help argv) eqn:Hhelp.
    + destruct argv as [|prog [|arg rest]]; try discriminate Hhelp.
      exists prog, arg, rest. split; [reflexivity|].
      cbn [wants_help] in Hhelp. apply orb_true_iff in Hhelp.
      destruct Hhelp as [H|H]; apply str_eqb_eq in H; tauto.
    + rewrite (main_without_help _ _ _ Hhelp), bind_print in Hrun.
      injection Hrun as Htitle _. vm_compute in Htitle. discriminate Htitle.
  - intros [prog [arg [rest [-> [-> | ->]]]]]; reflexivity.
Qed.

(** X11. Without the help flag, when every enumerated device opens but
    none has key events among its capabilities (or no device is enumerated
    at all), [main] prints the title, the device listing and the two texts
    saying that no input device was found, and returns without waiting for
    events: nothing of the monitor is printed, whatever events are
    pending. *)
Theorem no_key_device_no_monitoring (argv : list str) (sys : Inputs)
    (devs : list InputDevice) (rounds : list Ready) :
  wants_help argv = false ->
  Forall2 (fun p d => input_device sys p = Return d) (device_paths sys) devs ->
  (forall d, In d devs -> has_key (capabilities d) EV_KEY = false) ->
  outcome (main repr_capabilities keys argv sys rounds) = Return tt
  /\ printed (trace (main repr_capabilities keys argv sys rounds))
     = [lit "G15 Keyboard Key Code Debug Tool"; str_mul (lit "=") 40]
       ++ printed (trace (find_all_devices repr_capabilities sys))
       ++ [lit "No input devices found!";
           lit "Make sure you have permissions to access input devices."]
  /\ main repr_capabilities keys argv sys rounds
     = main repr_capabilities keys argv sys [].
Proof.
  intros Hhelp Hopen Hnone.
  assert (Hfound : filter monitored devs = []).
  { clear Hopen. induction devs as [|d devs IH]; [reflexivity|].
    cbn [filter]. unfold monitored at 1. rewrite (Hnone d (or_introl eq_refl)).
    apply IH. intros d' Hd'. apply Hnone. now right. }
  destruct (find_all_devices_run repr_capabilities sys devs Hopen) as [Ho _].
  rewrite Hfound in Ho.
  rewrite !(main_without_help _ _ _ Hhelp).
  destruct (find_all_devices repr_capabilities sys) as [t r].
  cbn [outcome snd] in Ho. subst r.
  cbn [bind print emit ret trace outcome fst snd app].
  unfold printed. cbn [flat_map app]. rewrite flat_map_app.
  now repeat split.
Qed.

(** X12. Without the help flag, when every enumerated device opens and
    some device has key events, [main] runs the monitor on exactly the
    devices the discovery step returned: its run is the title, the run of
    the discovery and the run of [monitor_events] on those devices, and it
    ends as the monitor ends. *)
Theorem main_monitors_found_devices (argv : list str) (sys : Inputs)
    (devs : list InputDevice) (rounds : list Ready) :
  wants_help argv = false ->
  Forall2 (fun p d => input_device sys p = Return d) (device_paths sys) devs ->
  (exists d, In d devs /\ has_key (capabilities d) EV_KEY = true) ->
  main repr_capabilities keys argv sys rounds
  = ([Printed (lit "G15 Keyboard Key Code Debug Tool"); Printed (str_mul (lit "=") 40)]
       ++ trace (find_all_devices repr_capabilities sys)
       ++ trace (monitor_events keys
                   (filter (fun d => has_key (capabilities d) EV_KEY) devs) rounds),
     outcome (monitor_events keys
                (filter (fun d => has_key (capabilities d) EV_KEY) devs) rounds)).
Proof.
  intros Hhelp Hopen [d [Hd Hkey]].
  destruct (find_all_devices_run repr_capabilities sys devs Hopen) as [Ho _].
  assert (Hin : In d (filter monitored devs)) by (apply filter_In; now split).
  rewrite (main_without_help _ _ _ Hhelp).
  destruct (find_all_devices repr_capabilities sys) as [t r].
  cbn [outcome snd] in Ho. subst r.
  change (filter (fun d0 => has_key (capabilities d0) EV_KEY) devs)
    with (filter monitored devs).
  destruct (filter monitored devs) as [|d0 ds]; [destruct Hin|].
  cbn [bind print emit ret].
  destruct (monitor_events keys (d0 :: ds) rounds) as [t' r'].
  reflexivity.
Qed.

(** X13. When a device of the enumeration cannot be opened, the
    discovery step raises the exception of the open; the devices before it
    have been opened and listed, the devices after it are never opened,
    the total is not printed, and [main] ends with the same exception. *)
Theorem open_failure_propagates (argv : list str) (sys : Inputs)
    (pre : list str) (devs : list InputDevice) (p : str) (post : list str)
    (e : exn) (rounds : list Ready) :
  device_paths sys = pre ++ p :: post ->
  Forall2 (fun q d => input_device sys q = Return d) pre devs ->
  input_device sys p = Raise e ->
  outcome (find_all_devices repr_capabilities sys) = Raise e
  /\ opened (trace (find_all_devices repr_capabilities sys)) = pre ++ [p]
  /\ printed (trace (find_all_devices repr_capabilities sys))
     = [lit "Available input devices:"; str_mul (lit "=") 50]
       ++ flat_map (device_lines repr_capabilities) devs
  /\ (wants_help argv = false ->
      outcome (main repr_capabilities keys argv sys rounds) = Raise e).
Proof.
  intros Hpaths Hpre Hp.
  destruct (scan_devices_fails sys pre devs p post e Hpre Hp []) as [Ho [Hpr Hop]].
  assert (Hrun : find_all_devices repr_capabilities sys
                 = (Printed (lit "Available input devices:")
                      :: Printed (str_mul (lit "=") 50)
                      :: Listed (lit "/dev/input")
                      :: trace (scan_devices repr_capabilities sys (pre ++ p :: post) []),
                    Raise e)).
  { unfold find_all_devices. rewrite Hpaths.
    destruct (scan_devices repr_capabilities sys (pre ++ p :: post) []) as [t r].
    cbn [outcome snd] in Ho. subst r. reflexivity. }
  rewrite Hrun. cbn [trace outcome fst snd].
  split; [reflexivity|]. split; [exact Hop|]. split.
  - unfold printed in *. cbn [flat_map app]. now rewrite Hpr.
  - intros Hhelp. rewrite (main_without_help _ _ _ Hhelp), Hrun. reflexivity.
Qed.

(** X14. A read that finds nothing pending leaves no mark: taking the
    devices whose read raises [BlockingIOError] out of every result of
    [select] gives the same run of the monitor. *)
Theorem blocking_reads_leave_no_mark (devices : list InputDevice) (rounds : list Ready) :
  monitor_events keys devices rounds
  = monitor_events keys devices
      (map (filter (fun r => negb (would_block r))) rounds).
Proof.
  assert (Hloop : select_loop keys devices
                    (map (filter (fun r => negb (would_block r))) rounds)
                  = select_loop keys devices rounds).
  { induction rounds as [|ready later IH]; [reflexivity|].
    cbn [map select_loop]. rewrite IH. f_equal.
    unfold select. rewrite filter_comm. apply for_each_skip.
    intros [d r] Hblock. apply negb_false_iff in Hblock.
    unfold would_block in Hblock. cbn [snd] in Hblock.
    destruct r as [evs|e]; [discriminate|]. destruct e; try discriminate.
    reflexivity. }
  unfold monitor_events. now rewrite Hloop.
Qed.

(** X15. Neither [BlockingIOError] nor [KeyboardInterrupt] ever leaves
    [monitor_events].  When it returns, the last text it printed is the
    exit message; when it ends with an exception, it printed its banner
    and what the loop printed, and no exit message after that. *)
Theorem interrupts_end_the_monitor_cleanly (devices : list InputDevice)
    (rounds : list Ready) :
  outcome (monitor_events keys devices rounds) <> Raise BlockingIOError
  /\ outcome (monitor_events keys devices rounds) <> Raise KeyboardInterrupt
  /\ (outcome (monitor_events keys devices rounds) = Return tt ->
      last (printed (trace (monitor_events keys devices rounds))) []
      = 10%N :: lit "Exiting...")
  /\ (forall e,
        outcome (monitor_events keys devices rounds) = Raise e ->
        printed (trace (monitor_events keys devices rounds))
        = DebugKeysSpec.monitor_banner
          ++ printed (trace (select_loop keys devices rounds))).
Proof.
  pose proof (select_loop_never_returns keys devices rounds) as Hnever.
  pose proof (select_loop_never_blocks devices rounds) as Hblock.
  unfold monitor_events.
  destruct (select_loop keys devices rounds) as [t [[]|e]];
    cbn [outcome snd] in Hnever, Hblock; [now elim Hnever|].
  destruct e; try (now elim Hblock);
    cbn [bind print emit try_except trace outcome fst snd app];
    (split; [discriminate|]); (split; [discriminate|]);
    try (split; [discriminate | intros e' _; reflexivity]).
  split; [|discriminate].
  intros _.
  change (Printed (10%N :: lit "Monitoring G15 input events...")
            :: Printed (lit "Press keys on your G15 keyboard (Ctrl+C to exit)")
            :: Printed (str_mul (lit "-") 60)
            :: t ++ [Printed (10%N :: lit "Exiting...")])
    with ((map Printed DebugKeysSpec.monitor_banner ++ t)
            ++ [Printed (10%N :: lit "Exiting...")]).
  rewrite printed_app. apply last_last.
Qed.

Lemma on_event_other_type (device : InputDevice) (q : Pending) :
  type (event q) <> EV_KEY -> on_event keys device q = ret tt.
Proof.
  intros H. apply N.eqb_neq in H. unfold on_event. now rewrite H.
Qed.

Lemma on_event_unnamed (device : InputDevice) (p : Pending) :
  type (event p) = EV_KEY -> keys (code (event p)) = None ->
  on_event keys device p = ([], Raise KeyError).
Proof.
  intros Ht Hk. unfold on_event, categorize. rewrite Ht, Hk. reflexivity.
Qed.

(** X16. An event of the key type whose code has no name in the table of
    key names ends the monitor with [KeyError], whatever its state (also
    for a release): here it is the first key event of the first read, so
    only the banner has been printed; the events queued behind it and the
    later reads are never handled, and no exit message is printed. *)
Theorem unnamed_key_code_stops_the_monitor (devices : list InputDevice)
    (d : InputDevice) (pre post : list Pending) (p : Pending) (later : list Ready) :
  existsb (fun d' => str_eqb (path d') (path d)) devices = true ->
  Forall (fun q => type (event q) <> EV_KEY) pre ->
  type (event p) = EV_KEY ->
  keys (code (event p)) = None ->
  monitor_events keys devices ([(d, Return (pre ++ p :: post))] :: later)
  = (map Printed DebugKeysSpec.monitor_banner, Raise KeyError).
Proof.
  intros Hsel Hpre Ht Hk.
  assert (Hloop : for_each (pre ++ p :: post) (on_event keys d) = ([], Raise KeyError)).
  { induction Hpre as [|q pre Hq _ IH]; cbn [app for_each].
    - now rewrite (on_event_unnamed d p Ht Hk).
    - now rewrite (on_event_other_type d q Hq), bind_ret. }
  unfold monitor_events. cbn [select_loop]. unfold select. cbn [filter fst].
  rewrite Hsel. cbn [for_each]. unfold read_device. cbn [fst snd].
  rewrite bind_ret, Hloop. reflexivity.
Qed.

End Evdev.

(** ** Concrete instances *)

Definition only_sensor : Inputs :=
  {| device_paths := [path DebugKeysSpec.sensor];
     input_device := fun _ => Return DebugKeysSpec.sensor |}.

Definition locked_devices : Inputs :=
  {| device_paths := [path DebugKeysSpec.keyboard; path DebugKeysSpec.sensor;
                      lit "/dev/input/event9"];
     input_device := fun p =>
       if str_eqb p (path DebugKeysSpec.keyboard) then Return DebugKeysSpec.keyboard
       else Raise PermissionError |}.

Lemma no_key_device_no_monitoring_witness :
  outcome (main DebugKeysSpec.no_repr DebugKeysSpec.key_names
             [lit "debug_keys.py"] only_sensor DebugKeysSpec.scripted) = Return tt.
Proof.
  refine (proj1 (no_key_device_no_monitoring DebugKeysSpec.no_repr
                   DebugKeysSpec.key_names [lit "debug_keys.py"] only_sensor
                   [DebugKeysSpec.sensor] DebugKeysSpec.scripted eq_refl _ _)).
  - repeat constructor.
  - intros d [<- | []]. reflexivity.
Defined.

Lemma main_monitors_found_devices_witness :
  outcome (main DebugKeysSpec.no_repr DebugKeysSpec.key_names
             [lit "debug_keys.py"] DebugKeysSpec.two_devices DebugKeysSpec.scripted)
  = outcome (monitor_events DebugKeysSpec.key_names [DebugKeysSpec.keyboard]
               DebugKeysSpec.scripted).
Proof.
  refine (f_equal snd
            (main_monitors_found_devices DebugKeysSpec.no_repr DebugKeysSpec.key_names
               [lit "debug_keys.py"] DebugKeysSpec.two_devices
               [DebugKeysSpec.keyboard; DebugKeysSpec.sensor] DebugKeysSpec.scripted
               eq_refl _ _)).
  - repeat constructor.
  - exists DebugKeysSpec.keyboard. split; [now left | reflexivity].
Defined.

Lemma open_failure_propagates_witness :
  outcome (find_all_devices DebugKeysSpec.no_repr locked_devices) = Raise PermissionError
  /\ opened (trace (find_all_devices DebugKeysSpec.no_repr locked_devices))
     = [path DebugKeysSpec.keyboard; path DebugKeysSpec.sensor].
Proof.
  assert (Hpre : Forall2 (fun q d => input_device locked_devices q = Return d)
                   [path DebugKeysSpec.keyboard] [DebugKeysSpec.keyboard]).
  { repeat constructor. }
  destruct (open_failure_propagates DebugKeysSpec.no_repr DebugKeysSpec.key_names
              [lit "debug_keys.py"] locked_devices
              [path DebugKeysSpec.keyboard] [DebugKeysSpec.keyboard]
              (path DebugKeysSpec.sensor) [lit "/dev/input/event9"]
              PermissionError DebugKeysSpec.scripted eq_refl Hpre eq_refl)
    as [Ho [Hop _]].
  now split.
Defined.

(** An excerpt of [evdev.ecodes.keys], for the codes the example below
    looks up: 30, 48 and 99 have names; 84 has none (the kernel's table of
    key codes goes from 83, [KEY_KPDOT], to 85, [KEY_ZENKAKUHANKAKU]). *)
Definition names_excerpt (c : N) : option str :=
  if (c =? 30)%N then Some (lit "KEY_A")
  else if (c =? 48)%N then Some (lit "KEY_B")
  else if (c =? 99)%N then Some (lit "KEY_SYSRQ")
  else None.

(** A read that delivers a scan-code event, then the release of the key
    with code 84, then key A down. *)
Lemma unnamed_key_code_stops_the_monitor_witness :
  monitor_events names_excerpt [DebugKeysSpec.keyboard]
    [[(DebugKeysSpec.keyboard,
       Return ([DebugKeysSpec.at_time "10:00:00" 4 4 84]
               ++ DebugKeysSpec.at_time "10:00:00" 1 84 0
               :: [DebugKeysSpec.at_time "10:00:01" 1 30 1]))]]
  = (map Printed DebugKeysSpec.monitor_banner, Raise KeyError).
Proof.
  apply (unnamed_key_code_stops_the_monitor names_excerpt
           [DebugKeysSpec.keyboard] DebugKeysSpec.keyboard).
  - reflexivity.
  - constructor; [discriminate | constructor].
  - reflexivity.
  - reflexivity.
Defined.

End DebugKeysMore.
